(** * A verified model of the storefront application [app.py]

    The request handlers of [app.py] (cart, checkout and admin product
    management) are embedded as executable functions over an explicit world
    state: the [products] table, the upload directory, the client's session,
    the configured admin password and the clock.

    Layout:
    - [Py]      : the Python built-ins that the handlers call ([str.strip],
                  [int], [float], float multiplication, [max], [dict]);
    - [Sqlite]  : the [products] table and the statements run on it;
    - [App]     : the handlers, one definition per function of [app.py], in
                  a state-and-exception monad;
    - [Spec]    : the vocabulary of the properties;
    - [Demo]    : concrete states and requests;
    - [Like]    : SQLite's [LIKE] operator and the search statement;
    - [Site]    : the storefront page [index], the routes, and what one
                  request may do to the world;
    - [Tour]    : concrete sequences of requests;
    - lemmas and theorems.

    Conventions:
    - a handler is modelled from the parsed request ([request.form],
      [request.files], the route argument) to its response or exception;
    - the database is the one [init_db] has created: the [products] table
      exists;
    - binary64 floats are the Standard Library's [spec_float], with its
      rounding to nearest, ties to even;
    - a route argument [<int:pid>] is any natural number; SQLite takes it
      only when it fits a signed 64-bit integer;
    - texts hold Unicode scalar values, as the UTF-8 decoding of a request
      and of a table column gives them: lone surrogates do not occur;
    - the templates and [price_fmt] (float formatting) are views and are
      left out: a handler is followed up to its call of [render_template]
      or [redirect]. *)

From Stdlib Require Import ZArith NArith List Bool Lia String Ascii.
From Stdlib Require Import Floats.SpecFloat Floats.PrimFloat Floats.FloatOps.
From stdpp Require Import base option list strings gmap.

Import ListNotations.
Local Open Scope Z_scope.

(* ===================================================================== *)
(** * Python built-ins *)
(* ===================================================================== *)

Module Py.

(** A Python [str] is a sequence of Unicode code points. *)
Definition str : Type := list N.

(** String literals of the source, written as ASCII text. *)
Definition lit (s : string) : str :=
  List.map N_of_ascii (list_ascii_of_string s).

(** Exceptions raised by the built-ins and the libraries the handlers use.
    [HTTPException] is werkzeug's: Flask turns it into an error page with
    the given status code; every other exception is unhandled. *)
Inductive exn : Type :=
| ValueError
| OverflowError
| IsADirectoryError
| OSError
| HTTPException (status : N).

Inductive result (A : Type) : Type :=
| Return (a : A)
| Raise (e : exn).
Arguments Return {A} a.
Arguments Raise {A} e.

(** ** [str.strip()] *)

(** [str.isspace] on one code point (CPython's [Py_UNICODE_ISSPACE]):
    bidirectional type WS, B or S, or general category Zs. *)
Definition isspace (c : N) : bool :=
  ((9 <=? c) && (c <=? 13) || (28 <=? c) && (c <=? 32)
   || (c =? 133) || (c =? 160) || (c =? 5760)
   || (8192 <=? c) && (c <=? 8202)
   || (c =? 8232) || (c =? 8233) || (c =? 8239) || (c =? 8287)
   || (c =? 12288))%N.

Fixpoint lstrip_with (sp : N -> bool) (s : str) : str :=
  match s with
  | c :: t => if sp c then lstrip_with sp t else s
  | [] => []
  end.

Definition strip_with (sp : N -> bool) (s : str) : str :=
  rev (lstrip_with sp (rev (lstrip_with sp s))).

Definition strip (s : str) : str := strip_with isspace s.

(** Truth value of a [str]: non-empty. *)
Definition truthy (s : str) : bool :=
  match s with [] => false | _ :: _ => true end.

(** ** Number syntax shared by [int(str)] and [float(str)] *)

(** First code point of every run [0..9] of Unicode decimal digits
    (general category Nd, Unicode 14.0 as shipped with CPython 3.11). *)
Definition decimal_zeros : list N :=
  [ 48; 1632; 1776; 1984; 2406; 2534; 2662; 2790; 2918; 3046; 3174; 3302;
    3430; 3558; 3664; 3792; 3872; 4160; 4240; 6112; 6160; 6470; 6608;
    6784; 6800; 6992; 7088; 7232; 7248; 42528; 43216; 43264; 43472;
    43504; 43600; 44016; 65296; 66720; 68912; 69734; 69872; 69942;
    70096; 70384; 70736; 70864; 71248; 71360; 71472; 71904; 72016;
    72784; 73040; 73120; 92768; 92864; 93008; 120782; 120792; 120802;
    120812; 120822; 123200; 123632; 125264; 130032 ]%N.

(** [Py_UNICODE_TODECIMAL]. *)
Definition to_decimal (c : N) : option N :=
  match List.find (fun z => (z <=? c) && (c <? z + 10))%N decimal_zeros with
  | Some z => Some (c - z)%N
  | None => None
  end.

(** [_PyUnicode_TransformDecimalAndSpaceToASCII]: code points below 127
    are kept, other spaces become [' '], other decimal digits become
    ASCII digits, and anything else becomes ['?'] and ends the text. *)
Fixpoint transform (s : str) : str :=
  match s with
  | [] => []
  | c :: t =>
      if (c <? 127)%N then c :: transform t
      else if isspace c then 32%N :: transform t
      else match to_decimal c with
           | Some d => (48 + d)%N :: transform t
           | None => [63%N]
           end
  end.

(** C's [isspace] in the "C" locale ([Py_ISSPACE]). *)
Definition c_isspace (c : N) : bool :=
  ((9 <=? c) && (c <=? 13) || (c =? 32))%N.

Definition is_digit (c : N) : bool := ((48 <=? c) && (c <=? 57))%N.

(** Longest prefix of the form [digit (["_"] digit)*]: the values of its
    digits, and the text after it. *)
Fixpoint digitpart (s : str) : list Z * str :=
  match s with
  | [] => ([], [])
  | c :: t =>
      if is_digit c then
        let '(ds, r) :=
          match t with
          | u :: ((d :: _) as t') =>
              if (u =? 95)%N && is_digit d then digitpart t' else digitpart t
          | _ => digitpart t
          end in
        (Z.of_N (c - 48) :: ds, r)
      else ([], s)
  end.

Definition of_digits (ds : list Z) : Z :=
  fold_left (fun acc d => 10 * acc + d) ds 0.

(** Optional sign: [true] for ["-"]. *)
Definition sign (s : str) : bool * str :=
  match s with
  | 45%N :: t => (true, t)
  | 43%N :: t => (false, t)
  | _ => (false, s)
  end.

(** ** [int(str)] *)

(** [sys.int_info.default_max_str_digits]. *)
Definition max_str_digits : nat := 4300.

Definition int (s : str) : result Z :=
  let '(neg, body) := sign (strip_with c_isspace (transform s)) in
  match digitpart body with
  | ((_ :: _) as ds, []) =>
      if (max_str_digits <? length ds)%nat then Raise ValueError
      else Return (if neg then - of_digits ds else of_digits ds)
  | _ => Raise ValueError
  end.

(** [int(x)] of a value that already is an [int] (the default [1] of
    [request.form.get("qty", 1)]). *)
Definition int_of_int (n : Z) : result Z := Return n.

(** ** [float(str)] *)

(** IEEE 754 binary64. *)
Definition prec : Z := 53.
Definition emax : Z := 1024.

(** The double nearest (ties to even) to [(-1)^neg * ds * 10^e10]. *)
Definition of_decimal (neg : bool) (ds e10 : Z) : spec_float :=
  match ds with
  | Zpos _ =>
      if 0 <=? e10 then
        binary_normalize prec emax (cond_Zopp neg (ds * 10 ^ e10)) 0 neg
      else
        let '(q, e, l) :=
          SFdiv_core_binary prec emax ds 0 (10 ^ (- e10)) 0 in
        binary_round_aux prec emax neg q e l
  | _ => S754_zero neg
  end.

Definition lower (c : N) : N :=
  if ((65 <=? c) && (c <=? 90))%N then (c + 32)%N else c.

Definition str_eqb (a b : str) : bool :=
  bool_decide (a = b).

(** [floatnumber ::= ([digitpart] "." digitpart | digitpart ["."])
                     [("e" | "E") ["+" | "-"] digitpart]] *)
Definition floatnumber (s : str) : option (Z * Z) :=
  let '(ip, r1) := digitpart s in
  let '(fp, r2) :=
    match r1 with
    | 46%N :: t => digitpart t
    | _ => ([], r1)
    end in
  match ip ++ fp with
  | [] => None
  | ds =>
      let m := of_digits ds in
      let scale := Z.of_nat (length fp) in
      match r2 with
      | [] => Some (m, - scale)
      | c :: t =>
          if (lower c =? 101)%N then
            let '(eneg, t') := sign t in
            match digitpart t' with
            | ((_ :: _) as es, []) =>
                Some (m, (if eneg then - of_digits es else of_digits es) - scale)
            | _ => None
            end
          else None
      end
  end.

Definition float (s : str) : result spec_float :=
  let '(neg, body) := sign (strip_with c_isspace (transform s)) in
  let word := List.map lower body in
  if str_eqb word (lit "inf") || str_eqb word (lit "infinity")
  then Return (S754_infinity neg)
  else if str_eqb word (lit "nan") then Return S754_nan
  else match floatnumber body with
       | Some (m, e10) => Return (of_decimal neg m e10)
       | None => Raise ValueError
       end.

(** Float multiplication [x * y]. *)
Definition fmul (x y : spec_float) : spec_float := SFmul prec emax x y.

(** The [int] constant [n] converted for arithmetic with a float. *)
Definition float_of_int (n : Z) : spec_float :=
  binary_normalize prec emax n 0 false.

(** [int(x)] of a float: truncation toward zero. *)
Definition int_of_float (x : spec_float) : result Z :=
  match x with
  | S754_nan => Raise ValueError
  | S754_infinity _ => Raise OverflowError
  | S754_zero _ => Return 0
  | S754_finite s m e =>
      Return (cond_Zopp s (if 0 <=? e then Zpos m * 2 ^ e
                           else Zpos m / 2 ^ (- e)))
  end.

(** Sign bit of a float (false for NaN). *)
Definition signbit (x : spec_float) : bool :=
  match x with
  | S754_zero s | S754_infinity s | S754_finite s _ _ => s
  | S754_nan => false
  end.

(** [len(s.encode())]: the number of bytes of the UTF-8 encoding. *)
Definition encoded_length (s : str) : Z :=
  fold_right
    (fun c n => n + (if (c <? 128)%N then 1 else if (c <? 2048)%N then 2
                     else if (c <? 65536)%N then 3 else 4))
    0 s.

(** ** [max] on [int] *)
Definition max (a b : Z) : Z := if a <? b then b else a.

(** ** [dict]: a finite map that iterates in insertion order *)
Section Dict.
Context {K V : Type} `{EqDecision K}.

Definition dict : Type := list (K * V).

(** [d.get(k)] *)
Fixpoint dict_get (d : dict) (k : K) : option V :=
  match d with
  | [] => None
  | (k', v) :: t => if decide (k' = k) then Some v else dict_get t k
  end.

(** [d[k] = v]: an existing key keeps its place, a new one goes last. *)
Fixpoint dict_set (d : dict) (k : K) (v : V) : dict :=
  match d with
  | [] => [(k, v)]
  | (k', v') :: t =>
      if decide (k' = k) then (k', v) :: t else (k', v') :: dict_set t k v
  end.

(** [d.pop(k, None)] *)
Fixpoint dict_pop (d : dict) (k : K) : dict :=
  match d with
  | [] => []
  | (k', v') :: t =>
      if decide (k' = k) then t else (k', v') :: dict_pop t k
  end.

(** [d.items()] *)
Definition dict_items (d : dict) : list (K * V) := d.
End Dict.
Arguments dict : clear implicits.

End Py.

(* ===================================================================== *)
(** * The [products] table *)
(* ===================================================================== *)

Module Sqlite.

(** One row of
    [products(id INTEGER PRIMARY KEY AUTOINCREMENT, name TEXT NOT NULL,
              price_cents INTEGER NOT NULL DEFAULT 0,
              description TEXT NOT NULL DEFAULT '',
              image TEXT NOT NULL DEFAULT '')]. *)
Record row : Type := Row {
  id : Z;
  name : Py.str;
  price_cents : Z;
  description : Py.str;
  image : Py.str
}.

(** The table: its rows in rowid order, and the largest rowid handed out
    so far (the [sqlite_sequence] entry kept for AUTOINCREMENT). *)
Record table : Type := Table {
  rows : list row;
  seq : Z
}.

(** An SQLite INTEGER is a signed 64-bit integer; binding a Python [int]
    outside that range raises [OverflowError]. *)
Definition int64 (n : Z) : bool := (- 2 ^ 63 <=? n) && (n <? 2 ^ 63).

(** Binding a Python [int] to a statement parameter. *)
Definition bind (n : Z) : Py.result Z :=
  if int64 n then Py.Return n else Py.Raise Py.OverflowError.

(** [SELECT * FROM products WHERE id = ?] followed by [fetchone()]. The
    column [id] is INTEGER: it holds signed 64-bit integers, so a value
    outside that range is the id of no row. *)
Definition select_by_id (t : table) (pid : Z) : option row :=
  if int64 pid then List.find (fun r => id r =? pid) (rows t) else None.

(** [SELECT * FROM products ORDER BY id DESC] followed by [fetchall()]. *)
Fixpoint insert_desc (r : row) (l : list row) : list row :=
  match l with
  | [] => [r]
  | r' :: l' => if id r' <=? id r then r :: l else r' :: insert_desc r l'
  end.

Definition select_all_desc (t : table) : list row :=
  fold_right insert_desc [] (rows t).

(** [SELECT COUNT( * ) FROM products] *)
Definition count (t : table) : Z := Z.of_nat (length (rows t)).

(** The rowid that AUTOINCREMENT hands out next: one more than the
    largest rowid ever used. The counter is followed as an integer without
    bound; SQLite refuses every insert once it has reached 2^63 - 1, and
    a table that far is outside this model. *)
Definition next_id (t : table) : Z :=
  1 + fold_left Z.max (List.map id (rows t)) (seq t).

(** [INSERT INTO products(name, price_cents, description, image)
     VALUES (?,?,?,?)] and [commit()]. *)
Definition insert (t : table) (n : Py.str) (price : Z) (d i : Py.str)
  : Py.result table :=
  if int64 price then
    let k := next_id t in
    Py.Return (Table (rows t ++ [Row k n price d i]) k)
  else Py.Raise Py.OverflowError.

(** [DELETE FROM products WHERE id = ?] and [commit()]. *)
Definition delete (t : table) (pid : Z) : table :=
  Table (List.filter (fun r => negb (id r =? pid)) (rows t)) (seq t).

End Sqlite.

(* ===================================================================== *)
(** * The application *)
(* ===================================================================== *)

Module App.
Import Py.
Export Sqlite.

(** ** State *)

(** The messages passed to [flash]. *)
Inductive notice : Type :=
| ProductAddedToCart      (* cart_add *)
| ProductRemovedFromCart  (* cart_remove *)
| FillAllFields           (* checkout *)
| WrongPassword           (* admin_login *)
| NameRequired            (* admin_products_add, empty name *)
| ProductAdded            (* admin_products_add *)
| ProductDeleted.         (* admin_products_delete *)

(** The cart of a session maps [str(pid)] to a quantity. A key is always
    the decimal text of the non-negative integer [pid] of a route
    [/cart/add/<int:pid>], and comparing it with the INTEGER column [id]
    converts it back, so the model keeps the integer as the key. *)
Definition cart_t : Type := dict N Z.

(** The keys of Flask's [session] that the handlers use; [None] is an
    absent key. *)
Record session_t : Type := Session {
  s_cart : option cart_t;
  s_is_admin : option bool;
  s_flashes : list notice
}.

(** What a request can read and change: the database, the directory
    [static/uploads], the client's session, [app.config["ADMIN_PASSWORD"]]
    and the clock ([int(datetime.utcnow().timestamp())]). *)
Record world : Type := World {
  db : table;
  uploads : gmap Py.str (list Byte.byte);
  session : session_t;
  ADMIN_PASSWORD : Py.str;
  utcnow : Z
}.

(** ** Requests and responses *)

Inductive method_t : Type := GET | POST.

(** werkzeug's [FileStorage]. *)
Record FileStorage : Type := {
  filename : Py.str;
  stream : list Byte.byte
}.

(** [request.method], [request.form] and [request.files]; [form !! k] is
    [request.form.get(k)]. *)
Record request : Type := Request {
  method : method_t;
  form : gmap string Py.str;
  files : gmap string FileStorage
}.

Inductive endpoint : Type :=
| ep_cart_view | ep_checkout | ep_admin_login | ep_admin_products.

(** A line item built by [cart_items]. *)
Record item : Type := Item {
  product : row;
  qty : Z;
  subtotal : Z
}.

(** The templates, each with the data it is rendered from. *)
Inductive page : Type :=
| product_detail_html (p : row)
| cart_html (items : list item) (total : Z)
| checkout_html (items : list item) (total : Z)
| order_success_html (order_id : Z) (total : Z)
| admin_login_html
| admin_products_html (products : list row).

Inductive response : Type :=
| redirect (e : endpoint)
| render_template (p : page).

(** ** Handlers run in a state-and-exception monad *)

Definition M (A : Type) : Type := world -> result A * world.

Definition lift {A} (r : result A) : M A := fun w => (r, w).
Definition raise {A} (e : exn) : M A := lift (Raise e).

#[export] Instance M_ret : MRet M := fun A a w => (Return a, w).
#[export] Instance M_bind : MBind M := fun A B k m w =>
  match m w with
  | (Return a, w') => k a w'
  | (Raise e, w') => (Raise e, w')
  end.

Definition get_db : M table := fun w => (Return (db w), w).
Definition set_db (t : table) : M unit :=
  fun w => (Return tt,
            World t (uploads w) (session w) (ADMIN_PASSWORD w) (utcnow w)).
Definition get_session : M session_t := fun w => (Return (session w), w).
Definition set_session (s : session_t) : M unit :=
  fun w => (Return tt,
            World (db w) (uploads w) s (ADMIN_PASSWORD w) (utcnow w)).

(** [abort(code)] *)
Definition abort {A} (code : N) : M A := raise (HTTPException code).

(** [session.get("cart", {})] *)
Definition session_get_cart : M cart_t :=
  s ← get_session; mret (default [] (s_cart s)).

(** [session["cart"] = c] *)
Definition session_set_cart (c : cart_t) : M unit :=
  s ← get_session;
  set_session (Session (Some c) (s_is_admin s) (s_flashes s)).

(** [session["is_admin"] = True] *)
Definition session_set_admin : M unit :=
  s ← get_session;
  set_session (Session (s_cart s) (Some true) (s_flashes s)).

Definition flash (n : notice) : M unit :=
  s ← get_session;
  set_session (Session (s_cart s) (s_is_admin s) (s_flashes s ++ [n])).

(** The longest file name, in bytes, that the file system of the upload
    directory takes ([NAME_MAX]). *)
Definition NAME_MAX : Z := 255.

(** [image_file.save(os.path.join(UPLOAD_FOLDER, name))], for a [name]
    without path separators, as [secure_filename] returns it: with an
    empty [name] the path is the directory itself and opening it fails;
    a [name] longer than [NAME_MAX] is refused by the file system. *)
Definition save (f : FileStorage) (name : Py.str) : M unit :=
  fun w => if truthy name
           then if NAME_MAX <? encoded_length name
                then (Raise OSError, w)
                else (Return tt,
                      World (db w) (<[name := stream f]> (uploads w))
                            (session w) (ADMIN_PASSWORD w) (utcnow w))
           else (Raise IsADirectoryError, w).

(** ** [init_db] *)

Definition demo : list (Py.str * Z * Py.str * Py.str) :=
  [ (lit "Aurvic Tee", 1999,
     lit "Premium cotton T-shirt with minimalist logo.", lit "tee.jpg");
    (lit "Aurvic Hoodie", 4999,
     lit "Cozy hoodie for everyday adventures.", lit "hoodie.jpg");
    (lit "Aurvic Cap", 1499,
     lit "Adjustable cap with embroidered monogram.", lit "cap.jpg") ].

Fixpoint insert_all (l : list (Py.str * Z * Py.str * Py.str)) : M unit :=
  match l with
  | [] => mret tt
  | (n, price, desc, img) :: l' =>
      t ← get_db;
      t' ← lift (insert t n price desc img);
      set_db t';;
      insert_all l'
  end.

Definition init_db : M unit :=
  t ← get_db;
  if count t =? 0 then insert_all demo else mret tt.

(** ** Utilities *)

(** The loop of [cart_items] over [cart.items()], with the running
    [items] and [total]. *)
Fixpoint cart_items_loop (t : table) (entries : list (N * Z))
    (items : list item) (total : Z) : list item * Z :=
  match entries with
  | [] => (items, total)
  | (pid, q) :: rest =>
      match select_by_id t (Z.of_N pid) with
      | Some r =>
          let subtotal := price_cents r * q in
          cart_items_loop t rest (items ++ [Item r q subtotal])
                          (total + subtotal)
      | None => cart_items_loop t rest items total
      end
  end.

Definition cart_items : M (list item * Z) :=
  cart ← session_get_cart;
  t ← get_db;
  mret (cart_items_loop t (dict_items cart) [] 0).

(** ** Routes: storefront *)

Definition product_detail (pid : N) : M response :=
  t ← get_db;
  k ← lift (bind (Z.of_N pid));
  match select_by_id t k with
  | None => abort 404
  | Some p => mret (render_template (product_detail_html p))
  end.

Definition cart_view : M response :=
  '(items, total) ← cart_items;
  mret (render_template (cart_html items total)).

(** [int(request.form.get("qty", 1))] *)
Definition qty_of_form (rq : request) : result Z :=
  match form rq !! "qty"%string with
  | Some s => Py.int s
  | None => Py.int_of_int 1
  end.

Definition cart_add (pid : N) (rq : request) : M response :=
  t ← get_db;
  k ← lift (bind (Z.of_N pid));
  match select_by_id t k with
  | None => abort 404
  | Some _ =>
      n ← lift (qty_of_form rq);
      let q := Py.max 1 n in
      cart ← session_get_cart;
      let cart := dict_set cart pid (default 0 (dict_get cart pid) + q) in
      session_set_cart cart;;
      flash ProductAddedToCart;;
      mret (redirect ep_cart_view)
  end.

Definition cart_remove (pid : N) : M response :=
  cart ← session_get_cart;
  let cart := dict_pop cart pid in
  session_set_cart cart;;
  flash ProductRemovedFromCart;;
  mret (redirect ep_cart_view).

(** [request.form.get(k, "").strip()] *)
Definition form_stripped (rq : request) (k : string) : Py.str :=
  strip (default [] (form rq !! k)).

Definition checkout (rq : request) : M response :=
  '(items, total) ← cart_items;
  match method rq with
  | POST =>
      let name := form_stripped rq "name" in
      let email := form_stripped rq "email" in
      let address := form_stripped rq "address" in
      if negb (truthy name && truthy email && truthy address) then
        flash FillAllFields;;
        mret (redirect ep_checkout)
      else
        order_id ← (fun w => (Return (utcnow w), w)) : M _;
        session_set_cart [];;
        mret (render_template (order_success_html order_id total))
  | GET => mret (render_template (checkout_html items total))
  end.

(** ** Routes: admin *)

Definition admin_login (rq : request) : M response :=
  match method rq with
  | POST =>
      let pwd := default [] (form rq !! "password"%string) in
      secret ← (fun w => (Return (ADMIN_PASSWORD w), w)) : M _;
      if str_eqb pwd secret then
        session_set_admin;;
        mret (redirect ep_admin_products)
      else
        flash WrongPassword;;
        mret (render_template admin_login_html)
  | GET => mret (render_template admin_login_html)
  end.

Definition admin_required : M bool :=
  s ← get_session;
  mret (match s_is_admin s with Some true => true | _ => false end).

Definition admin_products : M response :=
  ok ← admin_required;
  if negb ok then mret (redirect ep_admin_login)
  else
    t ← get_db;
    mret (render_template (admin_products_html (select_all_desc t))).

(** [int(float(request.form.get("price","0")) * 100)] *)
Definition price_of_form (rq : request) : result Z :=
  match Py.float (default (lit "0") (form rq !! "price"%string)) with
  | Return x => int_of_float (fmul x (float_of_int 100))
  | Raise e => Raise e
  end.

Section Werkzeug.
(** [werkzeug.utils.secure_filename]. *)
Variable secure_filename : Py.str -> Py.str.

Definition admin_products_add (rq : request) : M response :=
  ok ← admin_required;
  if negb ok then mret (redirect ep_admin_login)
  else
    let name := form_stripped rq "name" in
    price ← lift (price_of_form rq);
    let description := form_stripped rq "description" in
    image_name ←
      match files rq !! "image"%string with
      | Some image_file =>
          if truthy (filename image_file) then
            let image_name := secure_filename (filename image_file) in
            save image_file image_name;;
            mret image_name
          else mret []
      | None => mret []
      end;
    t ← get_db;
    if negb (truthy name) then
      flash NameRequired;;
      mret (redirect ep_admin_products)
    else
      t' ← lift (insert t name price description image_name);
      set_db t';;
      flash ProductAdded;;
      mret (redirect ep_admin_products).
End Werkzeug.

Definition admin_products_delete (pid : N) : M response :=
  ok ← admin_required;
  if negb ok then mret (redirect ep_admin_login)
  else
    t ← get_db;
    k ← lift (bind (Z.of_N pid));
    set_db (delete t k);;
    flash ProductDeleted;;
    mret (redirect ep_admin_products).

End App.

(* ===================================================================== *)
(** * Specification-level definitions *)
(* ===================================================================== *)

Module Spec.
Import Py App.

(** Python's [sum] of a list of integers. *)
Definition sum (l : list Z) : Z := fold_right Z.add 0 l.

(** The line item of one cart entry, if its product exists. *)
Definition line (t : table) (e : N * Z) : list item :=
  match select_by_id t (Z.of_N (fst e)) with
  | Some r => [Item r (snd e) (price_cents r * snd e)]
  | None => []
  end.

Definition lines (t : table) (c : cart_t) : list item :=
  List.concat (List.map (line t) c).

(** A result that Flask does not turn into a response: an exception
    other than an [HTTPException] escapes the handler. *)
Definition unhandled {A} (r : result A) : bool :=
  match r with
  | Raise (HTTPException _) => false
  | Raise _ => true
  | Return _ => false
  end.

(** The exact number of cents of a price written with two decimals. *)
Definition exact_cents (s : Py.str) : option Z :=
  match floatnumber s with
  | Some (m, -2) => Some m
  | _ => None
  end.

(** [session.get("is_admin")] is true. *)
Definition is_admin (w : world) : bool :=
  match s_is_admin (session w) with Some true => true | _ => false end.

Definition cart_of (w : world) : cart_t := default [] (s_cart (session w)).

(** The world [w] with one component replaced. *)
Definition with_cart (w : world) (c : cart_t) : world :=
  World (db w) (uploads w)
        (Session (Some c) (s_is_admin (session w)) (s_flashes (session w)))
        (ADMIN_PASSWORD w) (utcnow w).

Definition with_db (w : world) (t : table) : world :=
  World t (uploads w) (session w) (ADMIN_PASSWORD w) (utcnow w).

Definition with_upload (w : world) (name : Py.str) (f : FileStorage) : world :=
  World (db w) (<[name := stream f]> (uploads w)) (session w)
        (ADMIN_PASSWORD w) (utcnow w).

Definition with_flash (w : world) (n : notice) : world :=
  World (db w) (uploads w)
        (Session (s_cart (session w)) (s_is_admin (session w))
                 (s_flashes (session w) ++ [n]))
        (ADMIN_PASSWORD w) (utcnow w).

(** The upload that [admin_products_add] stores: the file field
    ["image"], when it is there and has a file name. *)
Definition kept_image (rq : request) : option FileStorage :=
  match files rq !! "image"%string with
  | Some f => if truthy (filename f) then Some f else None
  | None => None
  end.

(** A file name under which [save] stores a file. *)
Definition saveable (name : Py.str) : bool :=
  truthy name && (encoded_length name <=? NAME_MAX).

(** The image name and the world after the upload step of
    [admin_products_add]; [None] when saving fails. *)
Definition after_upload (secure_filename : Py.str -> Py.str)
    (rq : request) (w : world) : option (Py.str * world) :=
  match kept_image rq with
  | None => Some ([], w)
  | Some f =>
      if saveable (secure_filename (filename f))
      then Some (secure_filename (filename f),
                 with_upload w (secure_filename (filename f)) f)
      else None
  end.

(** The exception of a failed [save]. *)
Definition save_error (name : Py.str) : exn :=
  if truthy name then OSError else IsADirectoryError.

(** The exception of the upload step of [admin_products_add], when it
    fails. *)
Definition upload_error (secure_filename : Py.str -> Py.str) (rq : request)
  : exn :=
  match kept_image rq with
  | Some f => save_error (secure_filename (filename f))
  | None => OSError
  end.
End Spec.

(* ===================================================================== *)
(** * Example states and requests *)
(* ===================================================================== *)

Module Demo.
Import Py App Spec.

(** A fresh installation: no rows, no uploads, an empty session. *)
Definition fresh : world :=
  World (Table [] 0) ∅ (Session None None []) (lit "admin123") 1700000000.

(** The shop after [init_db] has seeded the three demo products. *)
Definition shop : world := snd (init_db fresh).

(** The same shop seen from a session that has logged in as admin. *)
Definition shop_admin : world :=
  snd (admin_login (Request POST {[ "password"%string := lit "admin123" ]} ∅)
                   shop).

(** The form of [POST /cart/add/<pid>] with the field [qty]. *)
Definition add_qty (q : string) : request :=
  Request POST {[ "qty"%string := lit q ]} ∅.

(** A session whose cart holds two Tees and three Hoodies. *)
Definition shopper : world :=
  snd (cart_add 2 (add_qty "3") (snd (cart_add 1 (add_qty "2") shop))).

(** The shopper logs in as admin and deletes the Tee (product 1), which
    is still in the cart. *)
Definition after_delete : world :=
  snd (admin_products_delete 1
         (snd (admin_login
                 (Request POST {[ "password"%string := lit "admin123" ]} ∅)
                 shopper))).

Definition checkout_form (n e a : string) : request :=
  Request POST
    {[ "name"%string := lit n; "email"%string := lit e;
       "address"%string := lit a ]} ∅.

Definition logo : FileStorage :=
  {| filename := lit "logo.png"; stream := [Byte.x89; Byte.x50] |}.

Definition product_form (n p : string) : request :=
  Request POST {[ "name"%string := lit n; "price"%string := lit p ]} ∅.

Definition product_form_with_logo (n p : string) : request :=
  Request POST {[ "name"%string := lit n; "price"%string := lit p ]}
          {[ "image"%string := logo ]}.

(** A stand-in for [secure_filename] on names that are already safe:
    keeps ASCII letters, digits, ['_'], ['.'] and ['-']. *)
Definition keep_safe (s : Py.str) : Py.str :=
  List.filter (fun c => ((48 <=? c) && (c <=? 57) || (65 <=? c) && (c <=? 90)
                         || (97 <=? c) && (c <=? 122)
                         || (c =? 95) || (c =? 46) || (c =? 45))%N) s.
End Demo.

(* ===================================================================== *)
(** * The storefront page and the routing table *)
(* ===================================================================== *)

(** The [LIKE] operator of SQLite, as [index] uses it. *)
Module Like.
Import Py.

(** [SQLITE_MAX_LIKE_PATTERN_LENGTH], in bytes of the UTF-8 pattern. *)
Definition max_pattern_length : Z := 50000.

(** Number of bytes of the UTF-8 encoding of a text. *)
Definition utf8_length (s : Py.str) : Z :=
  fold_right
    (fun c n => n + (if (c <? 128)%N then 1 else if (c <? 2048)%N then 2
                     else if (c <? 65536)%N then 3 else 4))
    0 s.

(** The operands reach the matcher as NUL-terminated C strings: a text is
    read up to its first NUL. *)
Fixpoint c_str (s : Py.str) : Py.str :=
  match s with
  | [] => []
  | c :: t => if (c =? 0)%N then [] else c :: c_str t
  end.

(** [f] holds of some suffix of [t] (the text itself included). *)
Fixpoint any_suffix (f : Py.str -> bool) (t : Py.str) : bool :=
  f t || match t with
         | [] => false
         | _ :: t' => any_suffix f t'
         end.

(** A character as the matcher reads it from the UTF-8 text: the
    non-characters U+FFFE and U+FFFF are read as U+FFFD. *)
Definition read (c : N) : N :=
  if ((c =? 65534) || (c =? 65535))%N then 65533%N else c.

(** The matcher: ['%'] stands for any run of characters, ['_'] for any one
    character, and any other character for itself, ASCII letters without
    regard to case. *)
Fixpoint matches (p t : Py.str) : bool :=
  match p with
  | [] => match t with [] => true | _ :: _ => false end
  | c :: p' =>
      if (c =? 37)%N then any_suffix (matches p') t
      else match t with
           | [] => false
           | d :: t' =>
               ((c =? 95)%N || (lower (read c) =? lower (read d))%N)
               && matches p' t'
           end
  end.

(** [text LIKE pattern] *)
Definition like (text pattern : Py.str) : bool :=
  matches (c_str pattern) (c_str text).

(** [SELECT * FROM products WHERE name LIKE ? OR description LIKE ?
     ORDER BY id DESC] with the same pattern bound twice; [None] is
    [sqlite3.OperationalError] ("LIKE or GLOB pattern too complex"),
    raised when the operator is applied to the first row. *)
Definition select_like_desc (t : Sqlite.table) (pattern : Py.str)
  : option (list Sqlite.row) :=
  match Sqlite.rows t with
  | [] => Some []
  | _ :: _ =>
      if max_pattern_length <? utf8_length pattern then None
      else Some (List.filter
                   (fun r => like (Sqlite.name r) pattern
                             || like (Sqlite.description r) pattern)
                   (Sqlite.select_all_desc t))
  end.

End Like.

Module Site.
Import Py App Spec.

(** ** [index] *)

(** What [index] ends in: the page [index.html] with its [products] and
    [q], an exception of [init_db], or [sqlite3.OperationalError]. *)
Inductive index_result : Type :=
| index_html (products : list row) (q : Py.str)
| index_raise (e : exn)
| index_OperationalError.

(** [args !! k] is [request.args.get(k)]. *)
Definition index (args : gmap string Py.str) (w : world)
  : index_result * world :=
  match init_db w with
  | (Raise e, w1) => (index_raise e, w1)
  | (Return _, w1) =>
      let q := strip (default [] (args !! "q"%string)) in
      if truthy q then
        match Like.select_like_desc (db w1) (lit "%" ++ q ++ lit "%") with
        | Some products => (index_html products q, w1)
        | None => (index_OperationalError, w1)
        end
      else (index_html (select_all_desc (db w1)) q, w1)
  end.

(** ** The routes of [app.route] *)

Inductive route : Type :=
| url_index                            (* "/" *)
| url_product (pid : N)                (* "/product/<int:pid>" *)
| url_cart                             (* "/cart" *)
| url_cart_add (pid : N)               (* "/cart/add/<int:pid>" *)
| url_cart_remove (pid : N)            (* "/cart/remove/<int:pid>" *)
| url_checkout                         (* "/checkout" *)
| url_admin                            (* "/admin" *)
| url_admin_products                   (* "/admin/products" *)
| url_admin_products_add               (* "/admin/products/add" *)
| url_admin_products_delete (pid : N). (* "/admin/products/<int:pid>/delete" *)

(** The [methods] of each route ([GET] when none are given). *)
Definition methods (u : route) : list method_t :=
  match u with
  | url_index | url_product _ | url_cart | url_admin_products => [GET]
  | url_cart_add _ | url_cart_remove _ | url_admin_products_add
  | url_admin_products_delete _ => [POST]
  | url_checkout | url_admin => [GET; POST]
  end.

Definition method_eqb (a b : method_t) : bool :=
  match a, b with
  | GET, GET | POST, POST => true
  | _, _ => false
  end.

(** One request: the matched route, the query string and the body. *)
Record hit : Type := Hit {
  url : route;
  args : gmap string Py.str;
  body : request
}.

(** The world after one request has been served. A method that the route
    does not list is refused before the view function runs. *)
Definition serve (secure_filename : Py.str -> Py.str) (h : hit) (w : world)
  : world :=
  if existsb (method_eqb (method (body h))) (methods (url h)) then
    match url h with
    | url_index => snd (index (args h) w)
    | url_product pid => snd (product_detail pid w)
    | url_cart => snd (cart_view w)
    | url_cart_add pid => snd (cart_add pid (body h) w)
    | url_cart_remove pid => snd (cart_remove pid w)
    | url_checkout => snd (checkout (body h) w)
    | url_admin => snd (admin_login (body h) w)
    | url_admin_products => snd (admin_products w)
    | url_admin_products_add =>
        snd (admin_products_add secure_filename (body h) w)
    | url_admin_products_delete pid => snd (admin_products_delete pid w)
    end
  else w.

(** The world after a sequence of requests of one client. Between two
    requests the session travels in a cookie, which does not keep the
    order of the cart's keys; what is stated along [browse] does not
    depend on that order. *)
Fixpoint browse (secure_filename : Py.str -> Py.str) (hs : list hit)
    (w : world) : world :=
  match hs with
  | [] => w
  | h :: hs' => browse secure_filename hs' (serve secure_filename h w)
  end.

(** ** Vocabulary of the properties *)

(** The request is a [POST /admin] with the configured password. *)
Definition logs_in (h : hit) (w : world) : bool :=
  match url h, method (body h) with
  | url_admin, POST =>
      str_eqb (default [] (form (body h) !! "password"%string))
              (ADMIN_PASSWORD w)
  | _, _ => false
  end.

(** A cart as the handlers build it: distinct keys, quantities of at
    least 1. *)
Definition cart_ok (c : cart_t) : Prop :=
  NoDup (List.map fst c) /\ List.Forall (fun e => 1 <= snd e) c.

(** [q] occurs in [t], ASCII letters compared without regard to case. *)
Definition contains_nocase (q t : Py.str) : Prop :=
  exists a q' b, t = a ++ q' ++ b /\ List.map lower q' = List.map lower q.

(** [q] occurs in [t] as [LIKE] compares characters: ASCII letters without
    regard to case, U+FFFE and U+FFFF as U+FFFD. *)
Definition contains_like (q t : Py.str) : Prop :=
  exists a q' b,
    t = a ++ q' ++ b
    /\ List.map (fun c => lower (Like.read c)) q'
       = List.map (fun c => lower (Like.read c)) q.

(** Every id of the table has been handed out by the AUTOINCREMENT
    counter. *)
Definition seq_ok (t : table) : Prop :=
  List.Forall (fun r => id r <= seq t) (rows t).

(** The id [pid] has been handed out and no product has it. *)
Definition retired (pid : Z) (t : table) : Prop :=
  seq_ok t /\ pid <= seq t /\ select_by_id t pid = None.

(** The rows are listed by descending id. *)
Fixpoint descending (l : list row) : Prop :=
  match l with
  | [] => True
  | r :: l' => List.Forall (fun r' => id r' <= id r) l' /\ descending l'
  end.

(** The table after [init_db] has seeded it: the three demo products under
    the next three ids. *)
Definition seeded (t : table) : table :=
  Table [ Row (seq t + 1) (lit "Aurvic Tee") 1999
              (lit "Premium cotton T-shirt with minimalist logo.")
              (lit "tee.jpg");
          Row (seq t + 2) (lit "Aurvic Hoodie") 4999
              (lit "Cozy hoodie for everyday adventures.") (lit "hoodie.jpg");
          Row (seq t + 3) (lit "Aurvic Cap") 1499
              (lit "Adjustable cap with embroidered monogram.")
              (lit "cap.jpg") ]
        (seq t + 3).

(** What one request can do to the world [w]. *)
Inductive effect (secure_filename : Py.str -> Py.str) (w : world) (h : hit)
  : world -> Prop :=
| eff_none :
    logs_in h w = false -> effect secure_filename w h w
| eff_seed :
    logs_in h w = false -> rows (db w) = [] ->
    effect secure_filename w h (with_db w (seeded (db w)))
| eff_flash (n : notice) :
    logs_in h w = false -> effect secure_filename w h (with_flash w n)
| eff_cart_add (pid : N) (n : Z) :
    logs_in h w = false ->
    select_by_id (db w) (Z.of_N pid) <> None ->
    effect secure_filename w h
      (with_flash
         (with_cart w (dict_set (cart_of w) pid
                                (default 0 (dict_get (cart_of w) pid)
                                 + Py.max 1 n)))
         ProductAddedToCart)
| eff_cart_remove (pid : N) :
    logs_in h w = false ->
    effect secure_filename w h
      (with_flash (with_cart w (dict_pop (cart_of w) pid))
                  ProductRemovedFromCart)
| eff_checkout :
    logs_in h w = false -> effect secure_filename w h (with_cart w [])
| eff_login :
    logs_in h w = true ->
    effect secure_filename w h
      (World (db w) (uploads w)
             (Session (s_cart (session w)) (Some true) (s_flashes (session w)))
             (ADMIN_PASSWORD w) (utcnow w))
| eff_add (w1 w' : world) :
    logs_in h w = false ->
    is_admin w = true ->
    w1 = w \/ (exists name f, w1 = with_upload w name f) ->
    w' = w1 \/ w' = with_flash w1 NameRequired
    \/ (exists n p d i t',
          insert (db w) n p d i = Return t'
          /\ w' = with_flash (with_db w1 t') ProductAdded) ->
    effect secure_filename w h w'
| eff_delete (pid : N) :
    logs_in h w = false ->
    is_admin w = true ->
    effect secure_filename w h
      (with_flash (with_db w (delete (db w) (Z.of_N pid))) ProductDeleted).

End Site.

(** A visit to the shop, request by request. *)
Module Tour.
Import Py App Spec Site.

Definition get (u : route) : hit := Hit u ∅ (Request GET ∅ ∅).

Definition search (q : string) : hit :=
  Hit url_index {[ "q"%string := lit q ]} (Request GET ∅ ∅).

Definition post (u : route) (fields : list (string * string)) : hit :=
  Hit u ∅
      (Request POST
         (list_to_map (List.map (fun kv => (fst kv, lit (snd kv))) fields)) ∅).

(** A visitor browses, fills the cart, tries the admin pages without the
    password, removes an item and checks out. *)
Definition visitor : list hit :=
  [ get url_index;
    post (url_cart_add 1) [("qty", "2")];
    post (url_cart_add 2) [("qty", "0")];
    post (url_cart_add 1) [("qty", "3")];
    post url_admin [("password", "letmein")];
    post url_admin_products_add [("name", "Free"); ("price", "0")];
    post (url_admin_products_delete 1) [];
    post (url_cart_remove 2) [];
    get url_cart;
    post url_checkout [("name", "Ada"); ("email", "a@b.c"); ("address", "1 Main St")] ].

(** The admin logs in, deletes the Tee and adds a Scarf. *)
Definition admin_session : list hit :=
  [ post url_admin [("password", "admin123")];
    post (url_admin_products_delete 1) [];
    post url_admin_products_add [("name", " Scarf "); ("price", "12.50")] ].

End Tour.

(* ===================================================================== *)
(** * Theorems *)
(* ===================================================================== *)

Import Py App Spec.

(** Unfolds the monadic plumbing of a handler. *)
Ltac run :=
  cbv beta iota delta
    [mbind M_bind mret M_ret lift raise abort get_db set_db get_session
     set_session session_get_cart session_set_cart session_set_admin flash
     cart_items cart_view admin_required dict_items].

(** ** The cart is resolved entry by entry *)

Lemma sum_app (l1 l2 : list Z) : sum (l1 ++ l2) = sum l1 + sum l2.
Proof.
  unfold sum. induction l1 as [|x l1 IH]; simpl; [reflexivity | lia].
Qed.

Lemma cart_items_loop_lines (t : table) (es : list (N * Z)) :
  forall items total,
    cart_items_loop t es items total
    = (items ++ lines t es, total + sum (List.map subtotal (lines t es))).
Proof.
  unfold lines.
  induction es as [|[pid q] es IH]; intros items total; simpl.
  - rewrite app_nil_r. f_equal. unfold sum. simpl. lia.
  - unfold line at 1 3. simpl.
    destruct (select_by_id t (Z.of_N pid)) as [r|]; simpl.
    + rewrite IH. rewrite <- app_assoc. simpl. f_equal.
      unfold sum; simpl; fold (sum (List.map subtotal (List.concat (List.map (line t) es)))). lia.
    + apply IH.
Qed.

Lemma cart_items_run (w : world) :
  cart_items w
  = (Return (lines (db w) (cart_of w),
             sum (List.map subtotal (lines (db w) (cart_of w)))), w).
Proof.
  run. rewrite cart_items_loop_lines. reflexivity.
Qed.

Lemma select_by_id_Some (t : table) (pid : Z) (r : row) :
  select_by_id t pid = Some r -> id r = pid /\ In r (rows t).
Proof.
  unfold select_by_id. destruct (int64 pid); [|discriminate]. intros H.
  apply List.find_some in H. destruct H as [Hin Heq].
  split; [apply Z.eqb_eq; exact Heq | exact Hin].
Qed.

Lemma select_by_id_int64 (t : table) (pid : Z) :
  select_by_id t pid <> None -> int64 pid = true.
Proof.
  unfold select_by_id. destruct (int64 pid); [reflexivity | congruence].
Qed.

Lemma bind_found (t : table) (pid : Z) :
  select_by_id t pid <> None -> bind pid = Return pid.
Proof.
  intros H. unfold bind. rewrite (select_by_id_int64 _ _ H). reflexivity.
Qed.

Lemma lines_subtotal (t : table) (c : cart_t) :
  List.Forall (fun it => subtotal it = price_cents (product it) * qty it)
              (lines t c).
Proof.
  unfold lines. induction c as [|[pid q] c IH]; simpl.
  - constructor.
  - apply List.Forall_app. split; [|exact IH].
    unfold line. simpl. destruct (select_by_id t (Z.of_N pid)); repeat constructor.
Qed.

Lemma lines_in_catalog (t : table) (c : cart_t) :
  List.Forall
    (fun it => select_by_id t (id (product it)) = Some (product it)
               /\ In (Z.to_N (id (product it)), qty it) c)
    (lines t c).
Proof.
  unfold lines. induction c as [|[pid q] c IH]; simpl.
  - constructor.
  - apply List.Forall_app. split.
    + unfold line. simpl.
      destruct (select_by_id t (Z.of_N pid)) as [r|] eqn:E; [|constructor].
      constructor; [|constructor]. simpl.
      destruct (select_by_id_Some _ _ _ E) as [-> _].
      split; [exact E | left; rewrite N2Z.id; reflexivity].
    + eapply List.Forall_impl; [|exact IH]. simpl. intros it [H1 H2].
      split; [exact H1 | right; exact H2].
Qed.

Lemma lines_skip_missing (t : table) (pid : N) (c : cart_t) :
  select_by_id t (Z.of_N pid) = None ->
  lines t (List.filter (fun e => negb (fst e =? pid)%N) c) = lines t c.
Proof.
  intros Hnone. unfold lines.
  induction c as [|[k q] c IH]; simpl; [reflexivity|].
  destruct (N.eqb_spec k pid) as [->|Hne]; simpl.
  - unfold line at 2. simpl. rewrite Hnone. simpl. exact IH.
  - rewrite IH. reflexivity.
Qed.

(** ** Dictionaries *)

Lemma dict_get_set_eq {K V} `{EqDecision K} (d : dict K V) (k : K) (v : V) :
  dict_get (dict_set d k v) k = Some v.
Proof.
  induction d as [|[k' v'] d IH]; simpl.
  - destruct (decide (k = k)); congruence.
  - destruct (decide (k' = k)) as [E|E]; simpl;
      destruct (decide (k' = k)); congruence.
Qed.

Lemma dict_get_set_ne {K V} `{EqDecision K} (d : dict K V) (k j : K) (v : V) :
  k <> j -> dict_get (dict_set d k v) j = dict_get d j.
Proof.
  intros Hne. induction d as [|[k' v'] d IH]; simpl.
  - destruct (decide (k = j)); congruence.
  - destruct (decide (k' = k)) as [E|E]; simpl.
    + subst k'. destruct (decide (k = j)); congruence.
    + destruct (decide (k' = j)); congruence.
Qed.

(** ** What [cart_add] does, path by path *)

Lemma cart_add_unbound (pid : N) (rq : request) (w : world) :
  int64 (Z.of_N pid) = false ->
  cart_add pid rq w = (Raise OverflowError, w).
Proof.
  intros H. unfold cart_add, bind. run. rewrite H. reflexivity.
Qed.

Lemma cart_add_missing (pid : N) (rq : request) (w : world) :
  int64 (Z.of_N pid) = true ->
  select_by_id (db w) (Z.of_N pid) = None ->
  cart_add pid rq w = (Raise (HTTPException 404), w).
Proof.
  intros H64 H. unfold cart_add, bind. run. rewrite H64, H. reflexivity.
Qed.

Lemma cart_add_bad_qty (pid : N) (rq : request) (w : world) (r : row) (e : exn) :
  select_by_id (db w) (Z.of_N pid) = Some r ->
  qty_of_form rq = Raise e ->
  cart_add pid rq w = (Raise e, w).
Proof.
  intros H Hq. unfold cart_add. run.
  rewrite (bind_found (db w) (Z.of_N pid)) by congruence.
  rewrite H, Hq. reflexivity.
Qed.

Lemma cart_add_found (pid : N) (rq : request) (w : world) (r : row) (n : Z) :
  select_by_id (db w) (Z.of_N pid) = Some r ->
  qty_of_form rq = Return n ->
  cart_add pid rq w
  = (Return (redirect ep_cart_view),
     World (db w) (uploads w)
           (Session
              (Some (dict_set (cart_of w) pid
                              (default 0 (dict_get (cart_of w) pid) + Py.max 1 n)))
              (s_is_admin (session w))
              (s_flashes (session w) ++ [ProductAddedToCart]))
           (ADMIN_PASSWORD w) (utcnow w)).
Proof.
  intros H Hq. unfold cart_add. run.
  rewrite (bind_found (db w) (Z.of_N pid)) by congruence.
  rewrite H, Hq. reflexivity.
Qed.

Lemma int_raises_ValueError (s : Py.str) (e : exn) :
  Py.int s = Raise e -> e = ValueError.
Proof.
  unfold Py.int.
  destruct (sign (strip_with c_isspace (transform s))) as [neg body].
  destruct (digitpart body) as [[|d ds] [|c r]]; try congruence.
  destruct (max_str_digits <? length (d :: ds))%nat; congruence.
Qed.

Lemma qty_of_form_raises (rq : request) (e : exn) :
  qty_of_form rq = Raise e -> e = ValueError.
Proof.
  unfold qty_of_form, int_of_int.
  destruct (form rq !! "qty"%string); [apply int_raises_ValueError | congruence].
Qed.

(** C1 (as the code has it): [cart_add] looks the product up before it
    touches the cart. An id of 2^63 or more cannot be bound to the SELECT:
    the request ends in an unhandled [OverflowError]; a smaller id without
    a product ends in a 404 page; in both cases the world, the cart
    included, is unchanged. When a product has the id and [qty] is
    accepted by [int], the entry is stored with the old quantity plus
    [max(1, qty)]. *)
Theorem cart_add_checks_catalog (pid : N) (rq : request) (w : world) :
  (int64 (Z.of_N pid) = false ->
   cart_add pid rq w = (Raise OverflowError, w))
  /\ (int64 (Z.of_N pid) = true ->
      select_by_id (db w) (Z.of_N pid) = None ->
      cart_add pid rq w = (Raise (HTTPException 404), w))
  /\ (forall r n,
        select_by_id (db w) (Z.of_N pid) = Some r ->
        qty_of_form rq = Return n ->
        fst (cart_add pid rq w) = Return (redirect ep_cart_view)
        /\ dict_get (cart_of (snd (cart_add pid rq w))) pid
           = Some (default 0 (dict_get (cart_of w) pid) + Py.max 1 n)).
Proof.
  split; [apply cart_add_unbound|].
  split; [apply cart_add_missing|].
  intros r n Hr Hq. rewrite (cart_add_found _ _ _ _ _ Hr Hq). simpl.
  split; [reflexivity|]. unfold cart_of at 1. simpl.
  apply dict_get_set_eq.
Qed.

(** C1, at a concrete input: an unknown id, the Tee, and the id 2^63,
    added in the seeded shop. *)
Lemma cart_add_checks_catalog_witness :
  cart_add 7 (Demo.add_qty "1") Demo.shop = (Raise (HTTPException 404), Demo.shop)
  /\ dict_get (cart_of (snd (cart_add 1 (Demo.add_qty "2") Demo.shop))) 1%N
     = Some 2
  /\ cart_add 9223372036854775808 (Demo.add_qty "1") Demo.shop
     = (Raise OverflowError, Demo.shop).
Proof.
  split; [|split].
  - apply (proj1 (proj2 (cart_add_checks_catalog 7 (Demo.add_qty "1") Demo.shop)));
      vm_compute; reflexivity.
  - destruct (select_by_id (db Demo.shop) 1) as [r|] eqn:Hr;
      [|vm_compute in Hr; discriminate Hr].
    apply (proj2 (proj2 (cart_add_checks_catalog 1 (Demo.add_qty "2") Demo.shop))
             r 2 Hr).
    vm_compute. reflexivity.
  - apply (proj1 (cart_add_checks_catalog 9223372036854775808
                    (Demo.add_qty "1") Demo.shop)).
    vm_compute. reflexivity.
Defined.

(** C1, refuted as stated: adding the id 7, which no product of the seeded
    shop has, stores no entry. *)
Lemma cart_add_unknown_product_not_stored :
  select_by_id (db Demo.shop) 7 = None
  /\ fst (cart_add 7 (Demo.add_qty "1") Demo.shop) = Raise (HTTPException 404)
  /\ dict_get (cart_of (snd (cart_add 7 (Demo.add_qty "1") Demo.shop))) 7%N
     = None.
Proof. vm_compute. repeat split. Qed.

(** C5 (as the code has it): for a product that exists in the catalog and
    is not in the cart, a [qty] that [int] reads as zero or negative is
    stored as quantity 1. *)
Theorem cart_add_clamps_quantity (pid : N) (rq : request) (w : world) (n : Z) :
  select_by_id (db w) (Z.of_N pid) <> None ->
  dict_get (cart_of w) pid = None ->
  qty_of_form rq = Return n ->
  n <= 0 ->
  fst (cart_add pid rq w) = Return (redirect ep_cart_view)
  /\ dict_get (cart_of (snd (cart_add pid rq w))) pid = Some 1.
Proof.
  intros Hex Hfresh Hq Hn.
  destruct (select_by_id (db w) (Z.of_N pid)) as [r|] eqn:Hr; [|congruence].
  rewrite (cart_add_found _ _ _ _ _ Hr Hq). simpl.
  split; [reflexivity|]. unfold cart_of at 1. simpl.
  rewrite dict_get_set_eq, Hfresh. simpl. f_equal.
  unfold Py.max. destruct (Z.ltb_spec 1 n); lia.
Qed.

(** C5, at concrete inputs: [qty] "0" and "-5" for the Tee in an empty
    cart. *)
Lemma cart_add_clamps_quantity_witness :
  dict_get (cart_of (snd (cart_add 1 (Demo.add_qty "0") Demo.shop))) 1%N = Some 1
  /\ dict_get (cart_of (snd (cart_add 1 (Demo.add_qty "-5") Demo.shop))) 1%N
     = Some 1.
Proof.
  split.
  - apply (cart_add_clamps_quantity 1 (Demo.add_qty "0") Demo.shop 0);
      vm_compute; congruence.
  - apply (cart_add_clamps_quantity 1 (Demo.add_qty "-5") Demo.shop (-5));
      vm_compute; congruence.
Defined.

(** C5, refuted as stated: the id 7 is not in the cart, and adding it with
    [qty] "0" leaves it without a quantity, since no product has that id. *)
Lemma cart_add_clamp_needs_product :
  dict_get (cart_of Demo.shop) 7%N = None
  /\ dict_get (cart_of (snd (cart_add 7 (Demo.add_qty "0") Demo.shop))) 7%N
     <> Some 1.
Proof. vm_compute. split; congruence. Qed.

(** ** Resolving the cart *)

(** C3: for every cart and catalog, [cart_items] returns a total that is
    the sum of the subtotals of the line items it returns, and every
    subtotal is the product's [price_cents] times the quantity. *)
Theorem cart_total_is_sum_of_subtotals (w : world) :
  exists items total,
    cart_items w = (Return (items, total), w)
    /\ total = sum (List.map subtotal items)
    /\ List.Forall
         (fun it => subtotal it = price_cents (product it) * qty it) items.
Proof.
  exists (lines (db w) (cart_of w)).
  exists (sum (List.map subtotal (lines (db w) (cart_of w)))).
  split; [apply cart_items_run|].
  split; [reflexivity | apply lines_subtotal].
Qed.

(** C6: when the cart holds an entry whose product id is not in the
    catalog, [cart_items] raises nothing, returns no line item for that id,
    and returns the items and the total of the cart without that entry. *)
Theorem cart_items_omits_dangling (w : world) (pid : N) (q : Z) :
  In (pid, q) (cart_of w) ->
  select_by_id (db w) (Z.of_N pid) = None ->
  exists items total,
    cart_items w = (Return (items, total), w)
    /\ List.Forall (fun it => id (product it) <> Z.of_N pid) items
    /\ fst (cart_items
              (with_cart w (List.filter (fun e => negb (fst e =? pid)%N)
                                        (cart_of w))))
       = Return (items, total).
Proof.
  intros _ Hnone.
  exists (lines (db w) (cart_of w)).
  exists (sum (List.map subtotal (lines (db w) (cart_of w)))).
  split; [apply cart_items_run|]. split.
  - eapply List.Forall_impl; [|apply lines_in_catalog].
    simpl. intros it [Hsel _] Heq. rewrite Heq in Hsel. congruence.
  - rewrite cart_items_run. cbn [fst].
    change (db (with_cart w ?c)) with (db w).
    change (cart_of (with_cart w ?c)) with c.
    rewrite (lines_skip_missing _ _ _ Hnone). reflexivity.
Qed.

(** C6, at a concrete input: the Tee was added to the cart and then
    deleted from the catalog; the cart resolves to the Hoodies alone. *)
Lemma cart_items_omits_dangling_witness :
  In (1%N, 2) (cart_of Demo.after_delete)
  /\ select_by_id (db Demo.after_delete) 1 = None
  /\ exists items total,
       cart_items Demo.after_delete
       = (Return (items, total), Demo.after_delete)
       /\ List.Forall (fun it => id (product it) <> 1) items
       /\ fst (cart_items
                 (with_cart Demo.after_delete
                            (List.filter (fun e => negb (fst e =? 1)%N)
                                         (cart_of Demo.after_delete))))
          = Return (items, total).
Proof.
  split; [vm_compute; left; reflexivity|].
  split; [vm_compute; reflexivity|].
  apply (cart_items_omits_dangling Demo.after_delete 1 2).
  - vm_compute. left. reflexivity.
  - vm_compute. reflexivity.
Defined.

Example after_delete_total :
  fst (cart_items Demo.shopper) = Return (lines (db Demo.shop) [(1%N, 2); (2%N, 3)], 18995)
  /\ fst (cart_items Demo.after_delete)
     = Return (lines (db Demo.shop) [(2%N, 3)], 14997).
Proof. vm_compute. split; reflexivity. Qed.

(** ** Checkout *)

(** C2: on a POST to [checkout], if one of name, email and address is
    empty after [strip], the response is the redirect back to the form
    with the notice [FillAllFields] and the cart (with the database and
    the uploads) is unchanged; if all three are non-empty, the cart
    becomes the empty dict and the response carries the order id and the
    total that [cart_items] computes in the state before the request. *)
Theorem checkout_submit (rq : request) (w : world) :
  method rq = POST ->
  let name := form_stripped rq "name" in
  let email := form_stripped rq "email" in
  let address := form_stripped rq "address" in
  let w' := snd (checkout rq w) in
  (name = [] \/ email = [] \/ address = [] ->
   fst (checkout rq w) = Return (redirect ep_checkout)
   /\ s_cart (session w') = s_cart (session w)
   /\ s_flashes (session w') = s_flashes (session w) ++ [FillAllFields]
   /\ db w' = db w /\ uploads w' = uploads w)
  /\ (name <> [] /\ email <> [] /\ address <> [] ->
      exists items total,
        fst (cart_items w) = Return (items, total)
        /\ fst (checkout rq w)
           = Return (render_template (order_success_html (utcnow w) total))
        /\ s_cart (session w') = Some []).
Proof.
  intros Hm name email address w'.
  assert (Hrun : checkout rq w
    = if negb (truthy name && truthy email && truthy address)
      then (Return (redirect ep_checkout),
            World (db w) (uploads w)
                  (Session (s_cart (session w)) (s_is_admin (session w))
                           (s_flashes (session w) ++ [FillAllFields]))
                  (ADMIN_PASSWORD w) (utcnow w))
      else (Return (render_template
                      (order_success_html (utcnow w)
                         (sum (List.map subtotal (lines (db w) (cart_of w)))))),
            World (db w) (uploads w)
                  (Session (Some []) (s_is_admin (session w))
                           (s_flashes (session w)))
                  (ADMIN_PASSWORD w) (utcnow w))).
  { unfold checkout. unfold mbind at 1. unfold M_bind at 1.
    rewrite cart_items_run. rewrite Hm.
    fold name email address.
    destruct (negb (truthy name && truthy email && truthy address));
      reflexivity. }
  subst w'. rewrite Hrun. split.
  - intros Hempty.
    assert (Hb : truthy name && truthy email && truthy address = false).
    { destruct Hempty as [E|[E|E]]; rewrite E; simpl;
        [reflexivity | destruct (truthy name); reflexivity
         | apply andb_false_r]. }
    rewrite Hb. simpl. repeat split; reflexivity.
  - intros (Hn & He & Ha).
    assert (Hb : truthy name && truthy email && truthy address = true).
    { destruct name, email, address; simpl; congruence. }
    rewrite Hb, cart_items_run. cbn [negb fst snd].
    eexists _, _. repeat split; reflexivity.
Qed.

(** C2, at concrete inputs: a blank email, and a complete form, submitted
    for the shopper's cart of 18995 cents. *)
Lemma checkout_submit_witness :
  (fst (checkout (Demo.checkout_form "Ada" "  " "1 Main St") Demo.shopper)
   = Return (redirect ep_checkout)
   /\ s_cart (session (snd (checkout (Demo.checkout_form "Ada" "  " "1 Main St")
                                     Demo.shopper)))
      = Some [(1%N, 2); (2%N, 3)])
  /\ (fst (checkout (Demo.checkout_form "Ada" "a@b.c" "1 Main St") Demo.shopper)
      = Return (render_template (order_success_html 1700000000 18995))
      /\ s_cart (session (snd (checkout (Demo.checkout_form "Ada" "a@b.c" "1 Main St")
                                        Demo.shopper)))
         = Some []).
Proof.
  split.
  - destruct (proj1 (checkout_submit (Demo.checkout_form "Ada" "  " "1 Main St")
                                     Demo.shopper eq_refl))
      as (H1 & H2 & _).
    + right. left. vm_compute. reflexivity.
    + split; [exact H1 | rewrite H2; vm_compute; reflexivity].
  - destruct (proj2 (checkout_submit (Demo.checkout_form "Ada" "a@b.c" "1 Main St")
                                     Demo.shopper eq_refl))
      as (items & total & H0 & H1 & H2).
    + repeat split; vm_compute; congruence.
    + split; [|exact H2]. rewrite H1.
      assert (total = 18995) as ->; [|reflexivity].
      vm_compute in H0. congruence.
Defined.

(** ** The admin gate *)

Lemma admin_required_run (w : world) :
  admin_required w = (Return (is_admin w), w).
Proof. reflexivity. Qed.

(** C4: in a session whose [is_admin] flag is not set, [admin_products_add]
    and [admin_products_delete] answer with the redirect to the login page
    and leave the whole world, the products table included, as it was. *)
Theorem admin_gate_keeps_catalog
    (secure_filename : Py.str -> Py.str) (rq : request) (pid : N) (w : world) :
  is_admin w = false ->
  (admin_products_add secure_filename rq w
   = (Return (redirect ep_admin_login), w)
   /\ db (snd (admin_products_add secure_filename rq w)) = db w)
  /\ (admin_products_delete pid w = (Return (redirect ep_admin_login), w)
      /\ db (snd (admin_products_delete pid w)) = db w).
Proof.
  intros Hno.
  assert (Ha : admin_products_add secure_filename rq w
               = (Return (redirect ep_admin_login), w)).
  { unfold admin_products_add. unfold mbind at 1. unfold M_bind at 1.
    rewrite admin_required_run, Hno. reflexivity. }
  assert (Hd : admin_products_delete pid w
               = (Return (redirect ep_admin_login), w)).
  { unfold admin_products_delete. unfold mbind at 1. unfold M_bind at 1.
    rewrite admin_required_run, Hno. reflexivity. }
  rewrite Ha, Hd. repeat split; reflexivity.
Qed.

(** C4, at a concrete input: a visitor who never logged in posts a product
    and a deletion to the seeded shop. *)
Lemma admin_gate_keeps_catalog_witness :
  is_admin Demo.shop = false
  /\ db (snd (admin_products_add Demo.keep_safe
                (Demo.product_form "Scarf" "9.50") Demo.shop))
     = db Demo.shop
  /\ db (snd (admin_products_delete 1 Demo.shop)) = db Demo.shop.
Proof.
  split; [reflexivity|].
  destruct (admin_gate_keeps_catalog Demo.keep_safe
              (Demo.product_form "Scarf" "9.50") 1 Demo.shop eq_refl)
    as [[_ H1] [_ H2]].
  split; [exact H1 | exact H2].
Defined.

(** ** What [admin_products_add] does, step by step *)

Lemma admin_products_add_run
    (secure_filename : Py.str -> Py.str) (rq : request) (w : world) :
  admin_products_add secure_filename rq w
  = if negb (is_admin w) then (Return (redirect ep_admin_login), w)
    else
      match price_of_form rq with
      | Raise e => (Raise e, w)
      | Return price =>
          match after_upload secure_filename rq w with
          | None => (Raise (upload_error secure_filename rq), w)
          | Some (image_name, w1) =>
              if negb (truthy (form_stripped rq "name"))
              then (Return (redirect ep_admin_products),
                    with_flash w1 NameRequired)
              else
                match insert (db w1) (form_stripped rq "name") price
                             (form_stripped rq "description") image_name with
                | Raise e => (Raise e, w1)
                | Return t' =>
                    (Return (redirect ep_admin_products),
                     with_flash (with_db w1 t') ProductAdded)
                end
          end
      end.
Proof.
  unfold admin_products_add, after_upload, upload_error, save_error, saveable,
    kept_image, save. run.
  fold (is_admin w).
  destruct (is_admin w); [|reflexivity]. cbn [negb].
  destruct (price_of_form rq) as [price|e]; [|reflexivity].
  destruct (files rq !! "image"%string) as [f|].
  - destruct (truthy (filename f)).
    + destruct (truthy (secure_filename (filename f))); [|reflexivity].
      cbn [andb]. rewrite Z.leb_antisym.
      destruct (NAME_MAX <? encoded_length (secure_filename (filename f)));
        [reflexivity|]. cbn [negb].
      destruct (truthy (form_stripped rq "name")); [|reflexivity].
      cbn [negb]. unfold with_upload. cbn [db].
      destruct (insert _ _ _ _ _); reflexivity.
    + destruct (truthy (form_stripped rq "name")); [|reflexivity].
      cbn [negb]. destruct (insert _ _ _ _ _); reflexivity.
  - destruct (truthy (form_stripped rq "name")); [|reflexivity].
    cbn [negb]. destruct (insert _ _ _ _ _); reflexivity.
Qed.

Lemma after_upload_db (sf : Py.str -> Py.str) (rq : request) (w w1 : world)
    (img : Py.str) :
  after_upload sf rq w = Some (img, w1) ->
  db w1 = db w /\ session w1 = session w.
Proof.
  unfold after_upload. destruct (kept_image rq) as [f|].
  - destruct (saveable (sf (filename f))); [|discriminate].
    intros [= <- <-]. split; reflexivity.
  - intros [= <- <-]. split; reflexivity.
Qed.

(** ** Prices *)

Lemma float_raises_ValueError (s : Py.str) (e : exn) :
  Py.float s = Raise e -> e = ValueError.
Proof.
  unfold Py.float.
  destruct (sign (strip_with c_isspace (transform s))) as [neg body].
  destruct (_ || _); [discriminate|].
  destruct (str_eqb _ _); [discriminate|].
  destruct (floatnumber body) as [[m e10]|]; congruence.
Qed.

Lemma int_of_float_raises (x : spec_float) (e : exn) :
  int_of_float x = Raise e -> e = ValueError \/ e = OverflowError.
Proof.
  destruct x; simpl; intros [= <-]; auto.
Qed.

Lemma price_of_form_raises (rq : request) (e : exn) :
  price_of_form rq = Raise e -> unhandled (@Raise response e) = true.
Proof.
  unfold price_of_form.
  destruct (Py.float _) as [x|e'] eqn:Hf.
  - intros H. destruct (int_of_float_raises _ _ H) as [-> | ->]; reflexivity.
  - intros [= <-]. rewrite (float_raises_ValueError _ _ Hf). reflexivity.
Qed.

Lemma binary_round_aux_sign (sx : bool) (mx ex : Z) (lx : location) :
  match binary_round_aux prec emax sx mx ex lx with
  | S754_zero s | S754_infinity s | S754_finite s _ _ => s = sx
  | S754_nan => True
  end.
Proof.
  unfold binary_round_aux.
  destruct (shr_fexp prec emax mx ex lx) as [mrs' e'].
  destruct (shr_fexp prec emax _ e' loc_Exact) as [mrs'' e''].
  destruct (shr_m mrs''); [reflexivity | | exact I].
  destruct (e'' <=? emax - prec); reflexivity.
Qed.

Lemma hundred : float_of_int 100 = S754_finite false 7036874417766400 (-46).
Proof. vm_compute. reflexivity. Qed.

(** The kernel's own binary64 arithmetic reads ["19.99"] and multiplies it
    by [100.0] as the model does. *)
#[warnings="-inexact-float"]
Example kernel_floats_agree :
  Py.float (lit "19.99") = Return (Prim2SF 19.99%float)
  /\ fmul (Prim2SF 19.99%float) (float_of_int 100)
     = Prim2SF (19.99 * 100)%float
  /\ int_of_float (Prim2SF (19.99 * 100)%float) = Return 1998.
Proof. vm_compute. repeat split. Qed.

Lemma int_of_float_sign (x : spec_float) (p : Z) :
  int_of_float x = Return p ->
  (signbit x = false -> 0 <= p) /\ (signbit x = true -> p <= 0).
Proof.
  destruct x as [s|s| |s m e]; simpl; try discriminate.
  - intros [= <-]. split; lia.
  - intros [= <-].
    assert (0 <= (if 0 <=? e then Z.pos m * 2 ^ e else Z.pos m / 2 ^ (- e))).
    { destruct (Z.leb_spec 0 e).
      - apply Z.mul_nonneg_nonneg; [lia | apply Z.pow_nonneg; lia].
      - apply Z.div_pos; [lia | apply Z.pow_pos_nonneg; lia]. }
    split; intros ->; simpl; lia.
Qed.

Lemma cents_sign (x : spec_float) (p : Z) :
  int_of_float (fmul x (float_of_int 100)) = Return p ->
  (signbit x = false -> 0 <= p) /\ (signbit x = true -> p <= 0).
Proof.
  rewrite hundred. intros H.
  assert (Hs : fmul x (S754_finite false 7036874417766400 (-46)) = S754_nan
               \/ signbit (fmul x (S754_finite false 7036874417766400 (-46)))
                  = signbit x).
  { destruct x as [s|s| |s m e]; simpl; try (right; apply xorb_false_r).
    - left. reflexivity.
    - pose proof (binary_round_aux_sign (xorb s false)
                    (Z.pos (m * 7036874417766400)) (e + -46) loc_Exact) as B.
      destruct (binary_round_aux _ _ _ _ _ _); simpl;
        [right | right | left; reflexivity | right];
        rewrite B; apply xorb_false_r. }
  destruct Hs as [Hn|Hs].
  - rewrite Hn in H. discriminate.
  - rewrite <- Hs. apply int_of_float_sign. exact H.
Qed.

Lemma int_of_float_truncates (s : bool) (m : positive) (e : Z) :
  int_of_float (S754_finite s m e)
  = Return (Z.quot (cond_Zopp s (Z.pos m) * 2 ^ Z.max e 0) (2 ^ Z.max (- e) 0)).
Proof.
  simpl. f_equal. destruct (Z.leb_spec 0 e) as [He|He].
  - rewrite (Z.max_l e 0), (Z.max_r (- e) 0) by lia.
    rewrite Z.pow_0_r, Z.quot_1_r. destruct s; simpl; lia.
  - rewrite (Z.max_r e 0), (Z.max_l (- e) 0) by lia.
    rewrite Z.pow_0_r, Z.mul_1_r.
    assert (0 < 2 ^ (- e)) by (apply Z.pow_pos_nonneg; lia).
    destruct s; simpl.
    + change (Z.neg m) with (- Z.pos m). rewrite Z.quot_opp_l by lia.
      rewrite Z.quot_div_nonneg by lia. reflexivity.
    + rewrite Z.quot_div_nonneg by lia. reflexivity.
Qed.

Lemma insert_Return (t t' : table) (n : Py.str) (price : Z) (d i : Py.str) :
  insert t n price d i = Return t' ->
  int64 price = true
  /\ rows t' = rows t ++ [Row (next_id t) n price d i].
Proof.
  unfold insert. destruct (int64 price); [|discriminate].
  intros [= <-]. split; reflexivity.
Qed.

Lemma insert_Raise (t : table) (n : Py.str) (price : Z) (d i : Py.str) (e : exn) :
  insert t n price d i = Raise e -> int64 price = false /\ e = OverflowError.
Proof.
  unfold insert. destruct (int64 price); [discriminate|].
  intros [= <-]. split; reflexivity.
Qed.

Lemma init_db_seeds (w : world) :
  rows (db w) = [] ->
  List.map (fun r => (name r, price_cents r)) (rows (db (snd (init_db w))))
  = [(lit "Aurvic Tee", 1999); (lit "Aurvic Hoodie", 4999);
     (lit "Aurvic Cap", 1499)].
Proof.
  destruct w as [[rs sq] u s a n]. simpl. intros ->.
  unfold init_db, insert_all, demo, insert. run. reflexivity.
Qed.

(** C7 (as the code has it): the demo rows that [init_db] seeds have the
    prices 1999, 4999 and 1499; a row that [admin_products_add] inserts
    has [price_cents = int(float(price) * 100)], a signed 64-bit integer
    that is non-negative when the submitted price has no minus sign and
    non-positive when it has one. *)
Theorem stored_price_follows_input :
  (forall w,
      rows (db w) = [] ->
      List.Forall (fun r => 0 <= price_cents r)
                  (rows (db (snd (init_db w)))))
  /\ (forall secure_filename rq w r x,
        In r (rows (db (snd (admin_products_add secure_filename rq w)))) ->
        ~ In r (rows (db w)) ->
        Py.float (default (lit "0") (form rq !! "price"%string)) = Return x ->
        price_of_form rq = Return (price_cents r)
        /\ int64 (price_cents r) = true
        /\ (signbit x = false -> 0 <= price_cents r)
        /\ (signbit x = true -> price_cents r <= 0)).
Proof.
  split.
  - intros w Hw. pose proof (init_db_seeds w Hw) as H.
    apply List.Forall_forall. intros r Hr.
    assert (Hin : In (name r, price_cents r)
                     (List.map (fun r => (name r, price_cents r))
                               (rows (db (snd (init_db w)))))).
    { apply List.in_map_iff. exists r. split; [reflexivity | exact Hr]. }
    rewrite H in Hin. simpl in Hin.
    destruct Hin as [E|[E|[E|[]]]]; injection E as _ <-; lia.
  - intros sf rq w r x Hin Hnew Hx.
    rewrite admin_products_add_run in Hin.
    destruct (is_admin w); cbn [negb] in Hin; [|contradiction].
    destruct (price_of_form rq) as [price|e] eqn:Hp; [|contradiction].
    destruct (after_upload sf rq w) as [[img w1]|] eqn:Hu; [|contradiction].
    destruct (after_upload_db _ _ _ _ _ Hu) as [Hdb _].
    destruct (negb (truthy (form_stripped rq "name"))).
    { simpl in Hin. rewrite Hdb in Hin. contradiction. }
    destruct (insert (db w1) _ price _ img) as [t'|e] eqn:Hi.
    2:{ simpl in Hin. rewrite Hdb in Hin. contradiction. }
    destruct (insert_Return _ _ _ _ _ _ Hi) as [H64 Hrows].
    simpl in Hin. rewrite Hrows, Hdb in Hin.
    apply List.in_app_or in Hin. destruct Hin as [Hin|[<-|[]]];
      [contradiction|]. simpl.
    split; [reflexivity|]. split; [exact H64|].
    apply cents_sign. unfold price_of_form in Hp. rewrite Hx in Hp. exact Hp.
Qed.

(** C7, at a concrete input: the row that an admin inserts with the price
    ["12.50"] holds 1250 cents. *)
Lemma stored_price_follows_input_witness :
  let w' := snd (admin_products_add Demo.keep_safe
                   (Demo.product_form "Scarf" "12.50") Demo.shop_admin) in
  let r := Row 4 (lit "Scarf") 1250 [] [] in
  In r (rows (db w')) /\ 0 <= price_cents r /\ int64 (price_cents r) = true.
Proof.
  intros w' r.
  assert (Hin : In r (rows (db w'))).
  { vm_compute. right. right. right. left. reflexivity. }
  split; [exact Hin|].
  destruct (proj2 stored_price_follows_input Demo.keep_safe
              (Demo.product_form "Scarf" "12.50") Demo.shop_admin r
              (S754_finite false 7036874417766400 (-49)) Hin)
    as (_ & H64 & Hpos & _).
  - vm_compute. intros [E|[E|[E|[]]]]; discriminate E.
  - vm_compute. reflexivity.
  - split; [apply Hpos; reflexivity | exact H64].
Defined.

(** C7, refuted as stated: an admin who submits the price ["-1"] stores a
    product of -100 cents. *)
Lemma negative_price_is_stored :
  List.map price_cents
    (rows (db (snd (admin_products_add Demo.keep_safe
                      (Demo.product_form "Refund" "-1") Demo.shop_admin))))
  = [1999; 4999; 1499; -100]
  /\ ~ (0 <= -100).
Proof. split; [vm_compute; reflexivity | lia]. Qed.

(** ** Failure paths *)

Lemma unhandled_upload_error (sf : Py.str -> Py.str) (rq : request) :
  unhandled (@Raise response (upload_error sf rq)) = true.
Proof.
  unfold upload_error, save_error. destruct (kept_image rq) as [f|];
    [destruct (truthy (sf (filename f)))|]; reflexivity.
Qed.

Lemma after_upload_None (sf : Py.str -> Py.str) (rq : request) (w : world) :
  after_upload sf rq w = None
  <-> exists f, kept_image rq = Some f /\ saveable (sf (filename f)) = false.
Proof.
  unfold after_upload. destruct (kept_image rq) as [f|].
  - destruct (saveable (sf (filename f))) eqn:E.
    + split; [discriminate | intros (f' & [= <-] & H); congruence].
    + split; [eauto | reflexivity].
  - split; [discriminate | intros (f' & H & _); discriminate].
Qed.

Lemma unhandled_admin_products_add
    (sf : Py.str -> Py.str) (rq : request) (w : world) :
  unhandled (fst (admin_products_add sf rq w)) = true
  <-> is_admin w = true
      /\ ((exists e, price_of_form rq = Raise e)
          \/ (exists f, kept_image rq = Some f
                        /\ saveable (sf (filename f)) = false)
          \/ (exists p, price_of_form rq = Return p
                        /\ form_stripped rq "name" <> []
                        /\ int64 p = false)).
Proof.
  rewrite <- (after_upload_None sf rq w). rewrite admin_products_add_run.
  destruct (is_admin w); cbn [negb].
  2:{ simpl. split; [discriminate | intros [? _]; discriminate]. }
  destruct (price_of_form rq) as [price|e] eqn:Hp.
  2:{ cbn [fst]. rewrite (price_of_form_raises _ _ Hp).
      split; [|reflexivity]. intros _. split; [reflexivity|]. left. eauto. }
  destruct (after_upload sf rq w) as [[img w1]|] eqn:Hu.
  2:{ cbn [fst]. rewrite unhandled_upload_error.
      split; [|reflexivity]. intros _. split; [reflexivity|]. auto. }
  destruct (form_stripped rq "name") as [|c name'] eqn:Hn; cbn [truthy negb].
  { simpl. split; [discriminate|].
    intros [_ [[e He]|[Hnone|(p & _ & Hne & _)]]]; congruence. }
  destruct (insert (db w1) _ price _ img) as [t'|e] eqn:Hi; cbn [fst].
  - destruct (insert_Return _ _ _ _ _ _ Hi) as [H64 _]. simpl.
    split; [discriminate|].
    intros [_ [[e He]|[Hnone|(p & [= <-] & _ & H64')]]]; congruence.
  - destruct (insert_Raise _ _ _ _ _ _ Hi) as [H64 ->]. simpl.
    split; [|reflexivity]. intros _. split; [reflexivity|].
    right. right. exists price. repeat split; congruence.
Qed.

Lemma unhandled_cart_add (pid : N) (rq : request) (w : world) :
  unhandled (fst (cart_add pid rq w)) = true
  <-> int64 (Z.of_N pid) = false
      \/ (select_by_id (db w) (Z.of_N pid) <> None
          /\ qty_of_form rq = Raise ValueError).
Proof.
  destruct (int64 (Z.of_N pid)) eqn:H64.
  2:{ rewrite (cart_add_unbound _ _ _ H64). simpl. tauto. }
  destruct (select_by_id (db w) (Z.of_N pid)) as [r|] eqn:Hr.
  - destruct (qty_of_form rq) as [n|e] eqn:Hq.
    + rewrite (cart_add_found _ _ _ _ _ Hr Hq). simpl.
      split; [discriminate | intros [?|[_ ?]]; discriminate].
    + rewrite (cart_add_bad_qty _ _ _ _ _ Hr Hq).
      rewrite (qty_of_form_raises _ _ Hq). simpl.
      split; [|reflexivity]. intros _. right. split; congruence.
  - rewrite (cart_add_missing _ _ _ H64 Hr). simpl.
    split; [discriminate | intros [?|[? _]]; congruence].
Qed.

Lemma product_detail_run (pid : N) (w : world) :
  product_detail pid w
  = (if int64 (Z.of_N pid)
     then match select_by_id (db w) (Z.of_N pid) with
          | Some p => Return (render_template (product_detail_html p))
          | None => Raise (HTTPException 404)
          end
     else Raise OverflowError, w).
Proof.
  unfold product_detail, bind. run. destruct (int64 (Z.of_N pid)); [|reflexivity].
  cbn. destruct (select_by_id (db w) (Z.of_N pid)); reflexivity.
Qed.

Lemma admin_products_delete_run (pid : N) (w : world) :
  admin_products_delete pid w
  = if is_admin w
    then if int64 (Z.of_N pid)
         then (Return (redirect ep_admin_products),
               with_flash (with_db w (delete (db w) (Z.of_N pid)))
                          ProductDeleted)
         else (Raise OverflowError, w)
    else (Return (redirect ep_admin_login), w).
Proof.
  unfold admin_products_delete, bind. run. fold (is_admin w).
  destruct (is_admin w); [|reflexivity]. cbn [negb].
  destruct (int64 (Z.of_N pid)); reflexivity.
Qed.

Lemma admin_login_run (rq : request) (w : world) :
  admin_login rq w
  = match method rq with
    | GET => (Return (render_template admin_login_html), w)
    | POST =>
        if str_eqb (default [] (form rq !! "password"%string)) (ADMIN_PASSWORD w)
        then (Return (redirect ep_admin_products),
              World (db w) (uploads w)
                    (Session (s_cart (session w)) (Some true)
                             (s_flashes (session w)))
                    (ADMIN_PASSWORD w) (utcnow w))
        else (Return (render_template admin_login_html),
              with_flash w WrongPassword)
    end.
Proof.
  unfold admin_login. destruct (method rq); [reflexivity|]. run.
  destruct (str_eqb _ _); reflexivity.
Qed.

Lemma checkout_post_run (rq : request) (w : world) :
  method rq = POST ->
  checkout rq w
  = if negb (truthy (form_stripped rq "name") && truthy (form_stripped rq "email")
             && truthy (form_stripped rq "address"))
    then (Return (redirect ep_checkout), with_flash w FillAllFields)
    else (Return (render_template
                    (order_success_html (utcnow w)
                       (sum (List.map subtotal (lines (db w) (cart_of w)))))),
          with_cart w []).
Proof.
  intros Hm. unfold checkout. unfold mbind at 1. unfold M_bind at 1.
  rewrite cart_items_run, Hm.
  destruct (negb _); reflexivity.
Qed.

Lemma checkout_get_run (rq : request) (w : world) :
  method rq = GET ->
  checkout rq w
  = (Return (render_template
               (checkout_html (lines (db w) (cart_of w))
                  (sum (List.map subtotal (lines (db w) (cart_of w)))))), w).
Proof.
  intros Hm. unfold checkout. unfold mbind at 1. unfold M_bind at 1.
  rewrite cart_items_run, Hm. reflexivity.
Qed.

(** C8 (as the code has it), for the handlers up to their call of
    [render_template] or [redirect].
    The failures that the handlers test for end in a response: an id
    below 2^63 without a product in a 404 page ([cart_add],
    [product_detail]); a request without the admin flag in the redirect
    to the login page, with no notice ([admin_products],
    [admin_products_add], [admin_products_delete]); an empty product name
    in a redirect with the notice [NameRequired]; an empty checkout field
    in a redirect with the notice [FillAllFields]; a wrong password in
    the login form with the notice [WrongPassword].
    Other invalid input is not handled. An exception escapes [cart_add]
    exactly when the id is 2^63 or more, or the product exists and [int]
    rejects [qty]; it escapes [product_detail] exactly when the id is
    2^63 or more; it escapes [admin_products_delete] exactly when the
    session is admin and the id is 2^63 or more; it escapes
    [admin_products_add] exactly when the session is admin and the price
    is rejected, or the upload has a file name whose sanitised form is
    empty or longer than [NAME_MAX] bytes, or the name is non-empty and
    the cents do not fit a signed 64-bit integer.
    [checkout], [admin_login], [cart_remove], [cart_view] and
    [admin_products] let no exception escape. *)
Theorem unhandled_exceptions
    (secure_filename : Py.str -> Py.str) (pid : N) (rq : request) (w : world) :
  (* unknown product *)
  (int64 (Z.of_N pid) = true ->
   select_by_id (db w) (Z.of_N pid) = None ->
   cart_add pid rq w = (Raise (HTTPException 404), w)
   /\ product_detail pid w = (Raise (HTTPException 404), w))
  (* admin gate *)
  /\ (is_admin w = false ->
      admin_products w = (Return (redirect ep_admin_login), w)
      /\ admin_products_add secure_filename rq w
         = (Return (redirect ep_admin_login), w)
      /\ admin_products_delete pid w = (Return (redirect ep_admin_login), w))
  (* empty product name *)
  /\ (forall p img w1,
        is_admin w = true ->
        price_of_form rq = Return p ->
        after_upload secure_filename rq w = Some (img, w1) ->
        form_stripped rq "name" = [] ->
        admin_products_add secure_filename rq w
        = (Return (redirect ep_admin_products), with_flash w1 NameRequired))
  (* empty checkout field *)
  /\ (method rq = POST ->
      form_stripped rq "name" = [] \/ form_stripped rq "email" = []
      \/ form_stripped rq "address" = [] ->
      checkout rq w = (Return (redirect ep_checkout), with_flash w FillAllFields))
  (* wrong password *)
  /\ (method rq = POST ->
      default [] (form rq !! "password"%string) <> ADMIN_PASSWORD w ->
      admin_login rq w
      = (Return (render_template admin_login_html), with_flash w WrongPassword))
  (* escaping exceptions *)
  /\ (unhandled (fst (cart_add pid rq w)) = true
      <-> int64 (Z.of_N pid) = false
          \/ (select_by_id (db w) (Z.of_N pid) <> None
              /\ qty_of_form rq = Raise ValueError))
  /\ (unhandled (fst (product_detail pid w)) = true
      <-> int64 (Z.of_N pid) = false)
  /\ (unhandled (fst (admin_products_delete pid w)) = true
      <-> is_admin w = true /\ int64 (Z.of_N pid) = false)
  /\ (unhandled (fst (admin_products_add secure_filename rq w)) = true
      <-> is_admin w = true
          /\ ((exists e, price_of_form rq = Raise e)
              \/ (exists f, kept_image rq = Some f
                            /\ saveable (secure_filename (filename f)) = false)
              \/ (exists p, price_of_form rq = Return p
                            /\ form_stripped rq "name" <> []
                            /\ int64 p = false)))
  /\ unhandled (fst (checkout rq w)) = false
  /\ unhandled (fst (admin_login rq w)) = false
  /\ unhandled (fst (cart_remove pid w)) = false
  /\ unhandled (fst (cart_view w)) = false
  /\ unhandled (fst (admin_products w)) = false.
Proof.
  assert (Hlist : forall b, is_admin w = b ->
            admin_products w
            = (if b then Return (render_template
                                   (admin_products_html (select_all_desc (db w))))
               else Return (redirect ep_admin_login), w)).
  { intros b <-. unfold admin_products. run. fold (is_admin w).
    destruct (is_admin w); reflexivity. }
  split.
  { intros H64 Hnone. split; [apply cart_add_missing; assumption|].
    rewrite product_detail_run, H64, Hnone. reflexivity. }
  split.
  { intros Hno. split; [apply (Hlist false Hno)|]. split.
    - rewrite admin_products_add_run, Hno. reflexivity.
    - rewrite admin_products_delete_run, Hno. reflexivity. }
  split.
  { intros p img w1 Hadm Hp Hu Hn.
    rewrite admin_products_add_run, Hadm, Hp, Hu, Hn. reflexivity. }
  split.
  { intros Hm Hempty. rewrite (checkout_post_run _ _ Hm).
    assert (Hb : truthy (form_stripped rq "name")
                 && truthy (form_stripped rq "email")
                 && truthy (form_stripped rq "address") = false).
    { destruct Hempty as [E|[E|E]]; rewrite E; simpl;
        [reflexivity | destruct (truthy _); reflexivity | apply andb_false_r]. }
    rewrite Hb. reflexivity. }
  split.
  { intros Hm Hpw. rewrite admin_login_run, Hm.
    unfold str_eqb. rewrite bool_decide_eq_false_2 by exact Hpw. reflexivity. }
  split; [apply unhandled_cart_add|].
  split.
  { rewrite product_detail_run. cbn [fst].
    destruct (int64 (Z.of_N pid)); [|simpl; tauto].
    destruct (select_by_id (db w) (Z.of_N pid)); simpl;
      split; discriminate. }
  split.
  { rewrite admin_products_delete_run.
    destruct (is_admin w); [|simpl; split; [discriminate | intros [? _]; discriminate]].
    destruct (int64 (Z.of_N pid)); simpl;
      [split; [discriminate | intros [_ ?]; discriminate] | tauto]. }
  split; [apply unhandled_admin_products_add|].
  split.
  { destruct (method rq) eqn:Hm.
    - rewrite (checkout_get_run _ _ Hm). reflexivity.
    - rewrite (checkout_post_run _ _ Hm). destruct (negb _); reflexivity. }
  split.
  { rewrite admin_login_run. destruct (method rq); [reflexivity|].
    destruct (str_eqb _ _); reflexivity. }
  split; [reflexivity|].
  split.
  { unfold cart_view. unfold mbind at 1. unfold M_bind at 1.
    rewrite cart_items_run. reflexivity. }
  rewrite (Hlist _ eq_refl). destruct (is_admin w); reflexivity.
Qed.

(** C8, at concrete inputs: the id 7 has no product, the shop's visitor
    is not admin, the admin posts the logo with a blank name, a checkout
    form lacks the email, the password is wrong, and the id 2^63 cannot be
    bound. *)
Lemma unhandled_exceptions_witness :
  cart_add 7 (Demo.add_qty "1") Demo.shop = (Raise (HTTPException 404), Demo.shop)
  /\ admin_products_delete 1 Demo.shop
     = (Return (redirect ep_admin_login), Demo.shop)
  /\ admin_products_add Demo.keep_safe
       (Demo.product_form_with_logo "  " "5") Demo.shop_admin
     = (Return (redirect ep_admin_products),
        with_flash (with_upload Demo.shop_admin (lit "logo.png") Demo.logo)
                   NameRequired)
  /\ checkout (Demo.checkout_form "Ada" " " "1 Main St") Demo.shop
     = (Return (redirect ep_checkout), with_flash Demo.shop FillAllFields)
  /\ admin_login (Request POST {[ "password"%string := lit "letmein" ]} ∅)
                 Demo.shop
     = (Return (render_template admin_login_html),
        with_flash Demo.shop WrongPassword)
  /\ unhandled (fst (product_detail 9223372036854775808 Demo.shop)) = true
  /\ unhandled (fst (admin_products_delete 9223372036854775808
                       Demo.shop_admin)) = true.
Proof.
  split.
  { apply (proj1 (unhandled_exceptions Demo.keep_safe 7 (Demo.add_qty "1")
                    Demo.shop)); vm_compute; reflexivity. }
  split.
  { apply (proj1 (proj2 (unhandled_exceptions Demo.keep_safe 1
                           (Demo.add_qty "1") Demo.shop))).
    reflexivity. }
  split.
  { apply (proj1 (proj2 (proj2 (unhandled_exceptions Demo.keep_safe 1
                    (Demo.product_form_with_logo "  " "5") Demo.shop_admin)))
             500 (lit "logo.png"));
      vm_compute; reflexivity. }
  split.
  { apply (proj1 (proj2 (proj2 (proj2 (unhandled_exceptions Demo.keep_safe 1
                    (Demo.checkout_form "Ada" " " "1 Main St") Demo.shop)))));
      [reflexivity | right; left; vm_compute; reflexivity]. }
  split.
  { apply (proj1 (proj2 (proj2 (proj2 (proj2
             (unhandled_exceptions Demo.keep_safe 1
                (Request POST {[ "password"%string := lit "letmein" ]} ∅)
                Demo.shop))))));
      [reflexivity | vm_compute; discriminate]. }
  split.
  { apply (proj1 (proj2 (proj2 (proj2 (proj2 (proj2 (proj2
             (unhandled_exceptions Demo.keep_safe 9223372036854775808
                (Demo.add_qty "1") Demo.shop)))))))).
    vm_compute. reflexivity. }
  apply (proj1 (proj2 (proj2 (proj2 (proj2 (proj2 (proj2 (proj2
           (unhandled_exceptions Demo.keep_safe 9223372036854775808
              (Demo.add_qty "1") Demo.shop_admin))))))))).
  split; vm_compute; reflexivity.
Defined.

(** C8, refuted as stated: a [qty] of ["abc"] for the Tee, and a price of
    ["abc"] from an admin, each end in an unhandled [ValueError]. *)
Lemma non_numeric_form_value_raises :
  cart_add 1 (Demo.add_qty "abc") Demo.shop = (Raise ValueError, Demo.shop)
  /\ admin_products_add Demo.keep_safe (Demo.product_form "Scarf" "abc")
                        Demo.shop_admin
     = (Raise ValueError, Demo.shop_admin)
  /\ unhandled (@Raise response ValueError) = true.
Proof. vm_compute. repeat split. Qed.

(** ** Uploads *)

(** C9 (as the code has it): for an admin request with an image that has a
    file name and with a name that is empty after [strip], no row is
    inserted. When the price is accepted and the sanitised file name can be
    saved (it is not empty and not longer than [NAME_MAX] bytes), the file
    is written under that name before the name is checked, and the response
    is the redirect with the notice [NameRequired]. When the price is
    rejected, or the sanitised name is empty or too long, the request
    raises and writes nothing. *)
Theorem upload_saved_before_name_check
    (secure_filename : Py.str -> Py.str) (rq : request) (w : world)
    (f : FileStorage) :
  is_admin w = true ->
  form_stripped rq "name" = [] ->
  files rq !! "image"%string = Some f ->
  filename f <> [] ->
  let out := admin_products_add secure_filename rq w in
  db (snd out) = db w
  /\ (forall p,
        price_of_form rq = Return p ->
        saveable (secure_filename (filename f)) = true ->
        fst out = Return (redirect ep_admin_products)
        /\ uploads (snd out)
           = <[secure_filename (filename f) := stream f]> (uploads w)
        /\ s_flashes (session (snd out))
           = s_flashes (session w) ++ [NameRequired])
  /\ ((exists e, price_of_form rq = Raise e)
      \/ saveable (secure_filename (filename f)) = false ->
      unhandled (fst out) = true /\ snd out = w).
Proof.
  intros Hadm Hname Hf Hfn out. subst out.
  rewrite admin_products_add_run, Hadm, Hname. cbn [negb truthy].
  assert (Hk : kept_image rq = Some f).
  { unfold kept_image. rewrite Hf.
    destruct (filename f); [congruence | reflexivity]. }
  pose proof (unhandled_upload_error secure_filename rq) as Herr.
  unfold after_upload. rewrite Hk.
  destruct (price_of_form rq) as [price|e] eqn:Hp.
  - destruct (saveable (secure_filename (filename f))) eqn:Hs.
    + split; [reflexivity|]. split.
      * intros p _ _. repeat split; reflexivity.
      * intros [[e He]|He]; congruence.
    + split; [reflexivity|]. split; [congruence|].
      intros _. cbn [fst snd]. split; [exact Herr | reflexivity].
  - split; [reflexivity|]. split; [congruence|].
    intros _. cbn [fst snd]. split; [|reflexivity].
    apply (price_of_form_raises _ _ Hp).
Qed.

(** C9, at a concrete input: an admin posts the logo with a blank name and
    the price ["5"]; the logo is in the upload directory afterwards and the
    table is as before. *)
Lemma upload_saved_before_name_check_witness :
  let out := admin_products_add Demo.keep_safe
               (Demo.product_form_with_logo "  " "5") Demo.shop_admin in
  db (snd out) = db Demo.shop_admin
  /\ fst out = Return (redirect ep_admin_products)
  /\ uploads (snd out) !! lit "logo.png" = Some (stream Demo.logo).
Proof.
  intros out.
  destruct (upload_saved_before_name_check Demo.keep_safe
              (Demo.product_form_with_logo "  " "5") Demo.shop_admin Demo.logo)
    as (Hdb & Hsave & _); try (vm_compute; congruence).
  split; [exact Hdb|].
  destruct (Hsave 500) as (Hr & Hu & _); try (vm_compute; congruence).
  split; [exact Hr|].
  subst out. rewrite Hu. vm_compute. reflexivity.
Defined.

(** C9, refuted as stated: the same request with the price ["abc"] raises
    before the upload is looked at, and the upload directory stays empty. *)
Lemma upload_not_saved_when_price_rejected :
  let out := admin_products_add Demo.keep_safe
               (Demo.product_form_with_logo "  " "abc") Demo.shop_admin in
  fst out = Raise ValueError
  /\ uploads (snd out) = ∅
  /\ uploads (snd out) !! lit "logo.png" = None.
Proof. vm_compute. repeat split. Qed.

(** ** Cents *)

(** C10: [admin_products_add] stores [int(float(price) * 100)]: the
    submitted text is read as a binary64 float, multiplied by [100.0] in
    binary64, and truncated toward zero. For the price ["19.99"], whose
    exact number of cents is 1999, an admin request stores 1998. *)
Theorem price_is_truncated_binary_product
    (secure_filename : Py.str -> Py.str) (w : world) :
  is_admin w = true ->
  (forall rq x,
      Py.float (default (lit "0") (form rq !! "price"%string)) = Return x ->
      price_of_form rq = int_of_float (fmul x (float_of_int 100)))
  /\ (forall s m e,
        int_of_float (S754_finite s m e)
        = Return (Z.quot (cond_Zopp s (Z.pos m) * 2 ^ Z.max e 0)
                         (2 ^ Z.max (- e) 0)))
  /\ exact_cents (lit "19.99") = Some 1999
  /\ exists r,
       rows (db (snd (admin_products_add secure_filename
                        (Demo.product_form "Tee" "19.99") w)))
       = rows (db w) ++ [r]
       /\ price_cents r = 1998
       /\ Z.abs (price_cents r - 1999) = 1.
Proof.
  intros Hadm. split.
  { intros rq x Hx. unfold price_of_form. rewrite Hx. reflexivity. }
  split; [apply int_of_float_truncates|].
  split; [vm_compute; reflexivity|].
  rewrite admin_products_add_run, Hadm. cbn [negb].
  assert (Hp : price_of_form (Demo.product_form "Tee" "19.99") = Return 1998)
    by (vm_compute; reflexivity).
  assert (Hn : form_stripped (Demo.product_form "Tee" "19.99") "name" = lit "Tee")
    by (vm_compute; reflexivity).
  assert (Hu : after_upload secure_filename (Demo.product_form "Tee" "19.99") w
               = Some ([], w)) by reflexivity.
  rewrite Hp, Hu, Hn.
  eexists. split; [reflexivity|]. split; reflexivity.
Qed.

(** C10, at a concrete input: the admin of the seeded shop adds a Tee for
    ["19.99"] and the table holds 1998 cents in the new row. *)
Lemma price_is_truncated_binary_product_witness :
  is_admin Demo.shop_admin = true
  /\ List.map price_cents
       (rows (db (snd (admin_products_add Demo.keep_safe
                         (Demo.product_form "Tee" "19.99") Demo.shop_admin))))
     = [1999; 4999; 1499; 1998].
Proof.
  split; [reflexivity|].
  destruct (price_is_truncated_binary_product Demo.keep_safe Demo.shop_admin
              eq_refl) as (_ & _ & _ & r & Hrows & Hprice & _).
  rewrite Hrows, List.map_app. simpl. rewrite Hprice. reflexivity.
Defined.

(* ===================================================================== *)
(** * Further properties of the handlers *)
(* ===================================================================== *)

Import Like Site.

(** ** More on dictionaries *)

Lemma dict_get_None_keys {K V} `{EqDecision K} (d : dict K V) (k : K) :
  dict_get d k = None <-> k ∉ List.map fst d.
Proof.
  induction d as [|[k' v'] d IH]; simpl.
  - split; [intros _; apply not_elem_of_nil | reflexivity].
  - rewrite not_elem_of_cons. destruct (decide (k' = k)) as [E|E].
    + split; [discriminate | intros [Hne _]; congruence].
    + rewrite IH. split; [intros Hk; split; [congruence | exact Hk] | tauto].
Qed.

Lemma dict_set_keys_present {K V} `{EqDecision K} (d : dict K V) (k : K) (v : V) :
  dict_get d k <> None -> List.map fst (dict_set d k v) = List.map fst d.
Proof.
  induction d as [|[k' v'] d IH]; simpl; [congruence|].
  destruct (decide (k' = k)) as [E|E]; simpl; [reflexivity|].
  intros Hin. f_equal. apply IH. exact Hin.
Qed.

Lemma dict_set_fresh {K V} `{EqDecision K} (d : dict K V) (k : K) (v : V) :
  dict_get d k = None -> dict_set d k v = d ++ [(k, v)].
Proof.
  induction d as [|[k' v'] d IH]; simpl; [reflexivity|].
  destruct (decide (k' = k)); [discriminate|].
  intros Hg. rewrite (IH Hg). reflexivity.
Qed.

Lemma dict_pop_absent {K V} `{EqDecision K} (d : dict K V) (k : K) :
  dict_get d k = None -> dict_pop d k = d.
Proof.
  induction d as [|[k' v'] d IH]; simpl; [reflexivity|].
  destruct (decide (k' = k)); [discriminate|].
  intros Hg. rewrite (IH Hg). reflexivity.
Qed.

Lemma dict_pop_app_fresh {K V} `{EqDecision K} (d : dict K V) (k : K) (v : V) :
  dict_get d k = None -> dict_pop (d ++ [(k, v)]) k = d.
Proof.
  induction d as [|[k' v'] d IH]; simpl.
  - destruct (decide (k = k)); congruence.
  - destruct (decide (k' = k)); [discriminate|].
    intros Hg. rewrite (IH Hg). reflexivity.
Qed.

Lemma dict_pop_keys_incl {K V} `{EqDecision K} (d : dict K V) (k j : K) :
  j ∈ List.map fst (dict_pop d k) -> j ∈ List.map fst d.
Proof.
  induction d as [|[k' v'] d IH]; simpl; [trivial|].
  destruct (decide (k' = k)); simpl; rewrite !elem_of_cons; [tauto|].
  intros [?|?]; [left; assumption | right; apply IH; assumption].
Qed.

Lemma dict_pop_NoDup {K V} `{EqDecision K} (d : dict K V) (k : K) :
  NoDup (List.map fst d) -> NoDup (List.map fst (dict_pop d k)).
Proof.
  induction d as [|[k' v'] d IH]; simpl; [trivial|].
  rewrite NoDup_cons. intros [Hnot Hnd].
  destruct (decide (k' = k)); simpl; [exact Hnd|].
  apply NoDup_cons. split; [|apply IH; exact Hnd].
  intros Hin. apply Hnot. apply (dict_pop_keys_incl d k). exact Hin.
Qed.

Lemma dict_get_pop_eq {K V} `{EqDecision K} (d : dict K V) (k : K) :
  NoDup (List.map fst d) -> dict_get (dict_pop d k) k = None.
Proof.
  induction d as [|[k' v'] d IH]; simpl; [reflexivity|].
  rewrite NoDup_cons. intros [Hnot Hnd].
  destruct (decide (k' = k)) as [E|E]; simpl.
  - subst k'. apply dict_get_None_keys. exact Hnot.
  - destruct (decide (k' = k)); [congruence|]. apply IH. exact Hnd.
Qed.

Lemma dict_get_pop_ne {K V} `{EqDecision K} (d : dict K V) (k j : K) :
  k <> j -> dict_get (dict_pop d k) j = dict_get d j.
Proof.
  intros Hne. induction d as [|[k' v'] d IH]; simpl; [reflexivity|].
  destruct (decide (k' = k)) as [E|E]; simpl.
  - subst k'. destruct (decide (k = j)); congruence.
  - destruct (decide (k' = j)); congruence.
Qed.

Lemma dict_set_NoDup {K V} `{EqDecision K} (d : dict K V) (k : K) (v : V) :
  NoDup (List.map fst d) -> NoDup (List.map fst (dict_set d k v)).
Proof.
  intros Hnd. destruct (dict_get d k) as [x|] eqn:Hg.
  - rewrite dict_set_keys_present; [exact Hnd | congruence].
  - rewrite (dict_set_fresh _ _ _ Hg), List.map_app. simpl.
    apply NoDup_app. split; [exact Hnd|]. split.
    + intros x Hx Hx'. apply list_elem_of_singleton in Hx'. subst x.
      apply (proj1 (dict_get_None_keys d k) Hg). exact Hx.
    + apply NoDup_singleton.
Qed.

Lemma cart_of_World (t : table) (u : gmap Py.str (list Byte.byte))
    (c : cart_t) (a : option bool) (f : list notice) (p : Py.str) (n : Z) :
  cart_of (World t u (Session (Some c) a f) p n) = c.
Proof. reflexivity. Qed.

(** ** [cart_remove] *)

Lemma cart_remove_run (pid : N) (w : world) :
  cart_remove pid w
  = (Return (redirect ep_cart_view),
     with_flash (with_cart w (dict_pop (cart_of w) pid)) ProductRemovedFromCart).
Proof. reflexivity. Qed.

(** X1: for a cart with distinct keys, [cart_remove] answers with the
    redirect to the cart page, leaves the id without a quantity, keeps the
    quantity of every other id, and touches neither the table nor the
    uploads. *)
Theorem cart_remove_removes (pid : N) (w : world) :
  cart_ok (cart_of w) ->
  let w' := snd (cart_remove pid w) in
  fst (cart_remove pid w) = Return (redirect ep_cart_view)
  /\ dict_get (cart_of w') pid = None
  /\ (forall j, j <> pid -> dict_get (cart_of w') j = dict_get (cart_of w) j)
  /\ db w' = db w /\ uploads w' = uploads w.
Proof.
  intros [Hnd _] w'. subst w'. rewrite cart_remove_run. cbn [fst snd].
  change (cart_of (with_flash (with_cart w ?c) _)) with c.
  split; [reflexivity|].
  split; [apply dict_get_pop_eq; exact Hnd|].
  split; [|split; reflexivity].
  intros j Hj. apply dict_get_pop_ne. congruence.
Qed.

Lemma cart_remove_removes_witness :
  cart_ok (cart_of Demo.shopper)
  /\ dict_get (cart_of (snd (cart_remove 1 Demo.shopper))) 1%N = None
  /\ dict_get (cart_of (snd (cart_remove 1 Demo.shopper))) 2%N = Some 3.
Proof.
  assert (Hok : cart_ok (cart_of Demo.shopper)).
  { split; vm_compute.
    - apply NoDup_cons. split; [|apply NoDup_singleton].
      intros Hin. apply list_elem_of_singleton in Hin. discriminate Hin.
    - repeat constructor; discriminate. }
  split; [exact Hok|].
  destruct (cart_remove_removes 1 Demo.shopper Hok) as (_ & H1 & H2 & _).
  split; [exact H1|]. rewrite (H2 2%N); [|discriminate].
  vm_compute. reflexivity.
Defined.

(** X2: removing the same id twice leaves every id with the quantity that
    removing it once leaves (for a cart with distinct keys). *)
Theorem cart_remove_idempotent (pid : N) (w : world) :
  cart_ok (cart_of w) ->
  forall j,
    dict_get (cart_of (snd (cart_remove pid (snd (cart_remove pid w))))) j
    = dict_get (cart_of (snd (cart_remove pid w))) j.
Proof.
  intros [Hnd _] j. rewrite !cart_remove_run. cbn [snd].
  repeat change (cart_of (with_flash (with_cart ?x ?c) _)) with c.
  rewrite (dict_pop_absent (dict_pop (cart_of w) pid) pid); [reflexivity|].
  apply dict_get_pop_eq. exact Hnd.
Qed.

Lemma cart_remove_idempotent_witness :
  dict_get (cart_of (snd (cart_remove 1 (snd (cart_remove 1 Demo.shopper))))) 2%N
  = Some 3
  /\ dict_get (cart_of (snd (cart_remove 1 (snd (cart_remove 1 Demo.shopper))))) 1%N
     = None.
Proof.
  assert (Hok : cart_ok (cart_of Demo.shopper)).
  { split; vm_compute.
    - apply NoDup_cons. split; [|apply NoDup_singleton].
      intros Hin. apply list_elem_of_singleton in Hin. discriminate Hin.
    - repeat constructor; discriminate. }
  split; rewrite (cart_remove_idempotent 1 Demo.shopper Hok);
    vm_compute; reflexivity.
Defined.

(** X3: adding a product that is not in the cart and then removing it
    gives every id the quantity it had before. *)
Theorem cart_remove_undoes_cart_add (pid : N) (rq : request) (w : world) (n : Z) :
  select_by_id (db w) (Z.of_N pid) <> None ->
  qty_of_form rq = Return n ->
  dict_get (cart_of w) pid = None ->
  forall j,
    dict_get (cart_of (snd (cart_remove pid (snd (cart_add pid rq w))))) j
    = dict_get (cart_of w) j.
Proof.
  intros Hex Hq Hfresh j.
  destruct (select_by_id (db w) (Z.of_N pid)) as [r|] eqn:Hr; [|congruence].
  rewrite cart_remove_run, (cart_add_found _ _ _ _ _ Hr Hq). cbn [snd].
  change (cart_of (with_flash (with_cart ?x ?c) _)) with c.
  rewrite cart_of_World.
  rewrite (dict_set_fresh _ _ _ Hfresh), (dict_pop_app_fresh _ _ _ Hfresh).
  reflexivity.
Qed.

Lemma cart_remove_undoes_cart_add_witness :
  dict_get (cart_of (snd (cart_remove 3 (snd (cart_add 3 (Demo.add_qty "4")
                                                      Demo.shopper))))) 3%N
  = None
  /\ dict_get (cart_of (snd (cart_remove 3 (snd (cart_add 3 (Demo.add_qty "4")
                                                         Demo.shopper))))) 1%N
     = Some 2.
Proof.
  split;
    rewrite (cart_remove_undoes_cart_add 3 (Demo.add_qty "4") Demo.shopper 4);
    vm_compute; congruence.
Defined.

(** ** [cart_add] and the resolved cart *)

Lemma lines_total_dict_set (t : table) (c : cart_t) (pid : N) (r : row) (m : Z) :
  select_by_id t (Z.of_N pid) = Some r ->
  sum (List.map subtotal
         (lines t (dict_set c pid (default 0 (dict_get c pid) + m))))
  = sum (List.map subtotal (lines t c)) + price_cents r * m.
Proof.
  intros Hr. unfold lines.
  induction c as [|[k v] c IH]; simpl.
  - unfold line. simpl. rewrite Hr. unfold sum. simpl. lia.
  - destruct (decide (k = pid)) as [E|E]; simpl.
    + subst k. unfold line at 1 3. simpl. rewrite Hr.
      rewrite !List.map_app, !sum_app. unfold sum. simpl. lia.
    + rewrite !List.map_app, !sum_app. rewrite IH. lia.
Qed.

(** X4: adding a product to the cart raises the total that [cart_items]
    computes by the product's price times [max(1, qty)], whatever the cart
    held before. *)
Theorem cart_add_raises_total (pid : N) (rq : request) (w : world)
    (r : row) (n : Z) :
  select_by_id (db w) (Z.of_N pid) = Some r ->
  qty_of_form rq = Return n ->
  exists items items' total,
    fst (cart_items w) = Return (items, total)
    /\ fst (cart_items (snd (cart_add pid rq w)))
       = Return (items', total + price_cents r * Py.max 1 n).
Proof.
  intros Hr Hq. rewrite (cart_add_found _ _ _ _ _ Hr Hq), !cart_items_run.
  cbn [fst snd db]. rewrite cart_of_World.
  eexists _, _, _. split; [reflexivity|].
  rewrite (lines_total_dict_set _ _ _ _ _ Hr). reflexivity.
Qed.

Lemma cart_add_raises_total_witness :
  fst (cart_items Demo.shopper)
  = Return (lines (db Demo.shop) [(1%N, 2); (2%N, 3)], 18995)
  /\ exists items',
       fst (cart_items (snd (cart_add 2 (Demo.add_qty "-7") Demo.shopper)))
       = Return (items', 18995 + 4999 * 1).
Proof.
  split; [vm_compute; reflexivity|].
  destruct (select_by_id (db Demo.shopper) 2) as [r|] eqn:Hr;
    [|vm_compute in Hr; discriminate Hr].
  destruct (cart_add_raises_total 2 (Demo.add_qty "-7") Demo.shopper r (-7) Hr)
    as (items & items' & total & H0 & H1); [vm_compute; reflexivity|].
  exists items'. rewrite H1. f_equal. f_equal.
  rewrite cart_items_run in H0. injection H0 as _ <-.
  vm_compute in Hr. injection Hr as <-. vm_compute. reflexivity.
Defined.

(** X5: [cart_add] changes the quantity of the added id alone: every
    other id keeps its quantity, the keys of the cart are the old keys and
    the added id, and the table and the uploads are untouched. *)
Theorem cart_add_keeps_other_entries (pid : N) (rq : request) (w : world) (n : Z) :
  select_by_id (db w) (Z.of_N pid) <> None ->
  qty_of_form rq = Return n ->
  let w' := snd (cart_add pid rq w) in
  (forall j, j <> pid -> dict_get (cart_of w') j = dict_get (cart_of w) j)
  /\ (forall j, dict_get (cart_of w') j <> None
                <-> j = pid \/ dict_get (cart_of w) j <> None)
  /\ db w' = db w /\ uploads w' = uploads w.
Proof.
  intros Hex Hq w'. subst w'.
  destruct (select_by_id (db w) (Z.of_N pid)) as [r|] eqn:Hr; [|congruence].
  rewrite (cart_add_found _ _ _ _ _ Hr Hq). cbn [snd db uploads].
  rewrite cart_of_World.
  split; [intros j Hj; apply dict_get_set_ne; congruence|].
  split; [|split; reflexivity].
  intros j. destruct (decide (j = pid)) as [->|Hne].
  - rewrite dict_get_set_eq. split; [auto | discriminate].
  - rewrite dict_get_set_ne by congruence. tauto.
Qed.

Lemma cart_add_keeps_other_entries_witness :
  dict_get (cart_of (snd (cart_add 1 (Demo.add_qty "5") Demo.shopper))) 1%N
  = Some 7
  /\ dict_get (cart_of (snd (cart_add 1 (Demo.add_qty "5") Demo.shopper))) 2%N
     = Some 3.
Proof.
  split; [vm_compute; reflexivity|].
  destruct (cart_add_keeps_other_entries 1 (Demo.add_qty "5") Demo.shopper 5)
    as (H & _); [vm_compute; congruence | vm_compute; reflexivity |].
  rewrite (H 2%N); [vm_compute; reflexivity | discriminate].
Defined.

(** X6: [cart_items] returns one line item per cart entry whose product
    exists, in the order of the cart, with the entry's quantity and the
    row that [SELECT ... WHERE id = ?] finds; entries of missing products
    leave no trace. *)
Theorem cart_items_follow_cart (w : world) :
  exists items total,
    cart_items w = (Return (items, total), w)
    /\ List.map (fun it => (Z.to_N (id (product it)), qty it)) items
       = List.filter
           (fun e => bool_decide (select_by_id (db w) (Z.of_N (fst e)) <> None))
           (cart_of w)
    /\ List.Forall
         (fun it => select_by_id (db w) (id (product it)) = Some (product it))
         items.
Proof.
  rewrite cart_items_run. eexists _, _. split; [reflexivity|]. split.
  - unfold lines. induction (cart_of w) as [|[k v] c IH]; [reflexivity|].
    simpl. rewrite List.map_app, IH. unfold line. simpl.
    destruct (select_by_id (db w) (Z.of_N k)) as [r|] eqn:Hr; simpl.
    + destruct (select_by_id_Some _ _ _ Hr) as [-> _]. rewrite N2Z.id.
      reflexivity.
    + reflexivity.
  - eapply List.Forall_impl; [|apply lines_in_catalog].
    simpl. intros it [H _]. exact H.
Qed.

(** ** [checkout] *)

(** X7: a successful checkout needs no items: with the three fields filled
    in, an empty or absent cart gives an order of total 0; and after any
    successful checkout the cart page shows no items and a total of 0,
    while the products table is as before. *)
Theorem checkout_empties_cart (rq : request) (w : world) :
  method rq = POST ->
  form_stripped rq "name" <> [] ->
  form_stripped rq "email" <> [] ->
  form_stripped rq "address" <> [] ->
  (cart_of w = [] ->
   fst (checkout rq w)
   = Return (render_template (order_success_html (utcnow w) 0)))
  /\ cart_view (snd (checkout rq w))
     = (Return (render_template (cart_html [] 0)), snd (checkout rq w))
  /\ db (snd (checkout rq w)) = db w.
Proof.
  intros Hm Hn He Ha. rewrite (checkout_post_run _ _ Hm).
  assert (Hb : truthy (form_stripped rq "name")
               && truthy (form_stripped rq "email")
               && truthy (form_stripped rq "address") = true).
  { destruct (form_stripped rq "name"), (form_stripped rq "email"),
      (form_stripped rq "address"); simpl; congruence. }
  rewrite Hb. cbn [negb fst snd]. split; [|split; reflexivity].
  intros ->. reflexivity.
Qed.

Lemma checkout_empties_cart_witness :
  fst (checkout (Demo.checkout_form "Ada" "a@b.c" "1 Main St") Demo.shop)
  = Return (render_template (order_success_html 1700000000 0))
  /\ fst (cart_view (snd (checkout (Demo.checkout_form "Ada" "a@b.c" "1 Main St")
                                   Demo.shopper)))
     = Return (render_template (cart_html [] 0)).
Proof.
  split.
  - apply (checkout_empties_cart (Demo.checkout_form "Ada" "a@b.c" "1 Main St")
             Demo.shop); vm_compute; congruence.
  - destruct (checkout_empties_cart
                (Demo.checkout_form "Ada" "a@b.c" "1 Main St") Demo.shopper)
      as (_ & H & _); [vm_compute; congruence .. |].
    rewrite H. reflexivity.
Defined.

(** A GET of the checkout form changes nothing and shows the items and
    the total that the cart page shows. *)
Theorem checkout_form_shows_cart (rq : request) (w : world) :
  method rq = GET ->
  exists items total,
    checkout rq w = (Return (render_template (checkout_html items total)), w)
    /\ cart_view w = (Return (render_template (cart_html items total)), w).
Proof.
  intros Hm. rewrite (checkout_get_run _ _ Hm).
  eexists _, _. split; [reflexivity|].
  unfold cart_view. unfold mbind at 1. unfold M_bind at 1.
  rewrite cart_items_run. reflexivity.
Qed.

Lemma checkout_form_shows_cart_witness :
  exists items,
    checkout (Request GET ∅ ∅) Demo.shopper
    = (Return (render_template (checkout_html items 18995)), Demo.shopper)
    /\ cart_view Demo.shopper
       = (Return (render_template (cart_html items 18995)), Demo.shopper).
Proof.
  destruct (checkout_form_shows_cart (Request GET ∅ ∅) Demo.shopper eq_refl)
    as (items & total & H1 & H2).
  exists items.
  assert (total = 18995) as <-; [|split; assumption].
  rewrite (checkout_get_run (Request GET ∅ ∅) Demo.shopper eq_refl) in H1.
  injection H1 as _ <-.
  vm_compute. reflexivity.
Defined.

(** ** The table: lookups after [insert] and [delete] *)

Lemma fold_max_ge (l : list Z) (a : Z) :
  a <= fold_left Z.max l a /\ List.Forall (fun x => x <= fold_left Z.max l a) l.
Proof.
  revert a. induction l as [|x l IH]; intros a; simpl.
  - split; [lia | constructor].
  - destruct (IH (Z.max a x)) as [H1 H2]. split; [lia|].
    constructor; [lia | exact H2].
Qed.

Lemma next_id_gt (t : table) :
  seq t < next_id t /\ List.Forall (fun r => id r < next_id t) (rows t).
Proof.
  unfold next_id. destruct (fold_max_ge (List.map id (rows t)) (seq t)) as [H1 H2].
  split; [lia|].
  apply List.Forall_forall. intros r Hr.
  rewrite List.Forall_forall in H2.
  specialize (H2 (id r) (List.in_map id _ _ Hr)). lia.
Qed.

Lemma find_app_last (rs : list row) (r : row) (j : Z) :
  List.find (fun x => id x =? j) (rs ++ [r])
  = match List.find (fun x => id x =? j) rs with
    | Some x => Some x
    | None => if id r =? j then Some r else None
    end.
Proof.
  induction rs as [|x rs IH]; simpl; [reflexivity|].
  destruct (id x =? j); [reflexivity | exact IH].
Qed.

Lemma find_none_below (rs : list row) (k : Z) :
  List.Forall (fun r => id r < k) rs ->
  List.find (fun x => id x =? k) rs = None.
Proof.
  induction 1 as [|x rs Hx _ IH]; simpl; [reflexivity|].
  destruct (Z.eqb_spec (id x) k); [lia | exact IH].
Qed.

Lemma select_by_id_insert (t t' : table) (n : Py.str) (p : Z) (d i : Py.str) :
  insert t n p d i = Return t' ->
  seq t' = next_id t
  /\ select_by_id t (next_id t) = None
  /\ forall j,
       select_by_id t' j
       = if j =? next_id t
         then if int64 j then Some (Row (next_id t) n p d i) else None
         else select_by_id t j.
Proof.
  intros Hi. destruct (insert_Return _ _ _ _ _ _ Hi) as [_ Hrows].
  assert (Hseq : seq t' = next_id t).
  { unfold insert in Hi. destruct (int64 p); [|discriminate].
    injection Hi as <-. reflexivity. }
  assert (Hfind : List.find (fun x => id x =? next_id t) (rows t) = None).
  { apply find_none_below. apply next_id_gt. }
  split; [exact Hseq|]. split.
  { unfold select_by_id. rewrite Hfind. destruct (int64 _); reflexivity. }
  intros j. unfold select_by_id. rewrite Hrows, find_app_last. simpl.
  destruct (int64 j).
  - destruct (Z.eqb_spec j (next_id t)) as [->|Hne].
    + rewrite Hfind, Z.eqb_refl. reflexivity.
    + destruct (List.find (fun x => id x =? j) (rows t)); [reflexivity|].
      destruct (Z.eqb_spec (next_id t) j); congruence.
  - destruct (j =? next_id t); reflexivity.
Qed.

Lemma select_by_id_delete (t : table) (pid j : Z) :
  select_by_id (delete t pid) j
  = if j =? pid then None else select_by_id t j.
Proof.
  unfold select_by_id, delete. simpl.
  destruct (int64 j); [|destruct (j =? pid); reflexivity].
  induction (rows t) as [|x rs IH]; simpl.
  - destruct (j =? pid); reflexivity.
  - destruct (Z.eqb_spec (id x) pid) as [E|E]; simpl.
    + rewrite IH. destruct (Z.eqb_spec j pid) as [->|Hne]; [reflexivity|].
      destruct (Z.eqb_spec (id x) j); [congruence | reflexivity].
    + destruct (Z.eqb_spec (id x) j) as [E'|E'].
      * destruct (Z.eqb_spec j pid); [congruence | reflexivity].
      * exact IH.
Qed.

(** Deleting an id that no row has leaves the rows as they are. *)
Lemma delete_absent (t : table) (pid : Z) :
  int64 pid = true ->
  select_by_id t pid = None -> rows (delete t pid) = rows t.
Proof.
  unfold select_by_id, delete. simpl. intros ->.
  induction (rows t) as [|x rs IH]; simpl; [reflexivity|].
  destruct (id x =? pid); [discriminate|]. simpl.
  intros H. rewrite (IH H). reflexivity.
Qed.

(** ** [init_db] *)

Lemma init_db_run (w : world) :
  init_db w
  = (Return tt, match rows (db w) with
                | [] => with_db w (seeded (db w))
                | _ :: _ => w
                end).
Proof.
  destruct w as [[rs sq] u s a n]. destruct rs as [|r rs].
  - unfold init_db, insert_all, demo, insert, with_db, seeded, count, next_id.
    run.
    change (int64 1999) with true. change (int64 4999) with true.
    change (int64 1499) with true.
    cbn [db rows length]. change (Z.of_nat 0 =? 0) with true.
    cbn -[lit Z.add Z.max].
    replace (1 + Z.max (Z.max (1 + Z.max (1 + sq) (1 + sq)) (1 + sq))
                       (1 + Z.max (1 + sq) (1 + sq))) with (sq + 3) by lia.
    replace (1 + Z.max (1 + sq) (1 + sq)) with (sq + 2) by lia.
    replace (1 + sq) with (sq + 1) by lia.
    reflexivity.
  - unfold init_db, count. run. cbn [db rows length].
    destruct (Z.eqb_spec (Z.of_nat (S (length rs))) 0); [lia | reflexivity].
Qed.

(** X8: [init_db] never raises; on a table without rows it stores the
    three demo products under the next three ids, on any other table it
    changes nothing; so running it again changes nothing, and the table is
    never empty afterwards. *)
Theorem init_db_idempotent (w : world) :
  fst (init_db w) = Return tt
  /\ (rows (db w) = [] -> snd (init_db w) = with_db w (seeded (db w)))
  /\ (rows (db w) <> [] -> snd (init_db w) = w)
  /\ rows (db (snd (init_db w))) <> []
  /\ snd (init_db (snd (init_db w))) = snd (init_db w).
Proof.
  rewrite !init_db_run. cbn [fst snd].
  destruct (rows (db w)) as [|r rs] eqn:Hrows.
  - repeat split; try congruence. discriminate.
  - rewrite Hrows. repeat split; congruence.
Qed.

(** ** [admin_products_delete] *)

(** X9: for an admin and an id below 2^63, [admin_products_delete]
    redirects to the product list with the notice [ProductDeleted], leaves
    no product under the id, keeps every other product, leaves the rows as
    they are when no product has the id, and keeps the cart: entries for
    the deleted product stay in it. For an id of 2^63 or more the DELETE
    cannot be bound: the request raises [OverflowError] and changes
    nothing. *)
Theorem admin_products_delete_removes (pid : N) (w : world) :
  is_admin w = true ->
  let w' := snd (admin_products_delete pid w) in
  (int64 (Z.of_N pid) = true ->
   fst (admin_products_delete pid w) = Return (redirect ep_admin_products)
   /\ s_flashes (session w') = s_flashes (session w) ++ [ProductDeleted]
   /\ select_by_id (db w') (Z.of_N pid) = None
   /\ (forall j, j <> Z.of_N pid ->
                 select_by_id (db w') j = select_by_id (db w) j)
   /\ (select_by_id (db w) (Z.of_N pid) = None -> rows (db w') = rows (db w))
   /\ cart_of w' = cart_of w)
  /\ (int64 (Z.of_N pid) = false ->
      admin_products_delete pid w = (Raise OverflowError, w)).
Proof.
  intros Hadm w'. subst w'. rewrite admin_products_delete_run, Hadm.
  split; intros H64; rewrite H64; [|reflexivity].
  cbn [fst snd]. change (db (with_flash (with_db ?x ?t) _)) with t.
  split; [reflexivity|]. split; [reflexivity|]. split.
  { rewrite select_by_id_delete, Z.eqb_refl. reflexivity. }
  split.
  { intros j Hj. rewrite select_by_id_delete.
    destruct (Z.eqb_spec j (Z.of_N pid)); congruence. }
  split; [apply delete_absent; exact H64 | reflexivity].
Qed.

Lemma admin_products_delete_removes_witness :
  select_by_id (db (snd (admin_products_delete 1 Demo.shop_admin))) 1 = None
  /\ select_by_id (db (snd (admin_products_delete 1 Demo.shop_admin))) 2
     = select_by_id (db Demo.shop_admin) 2
  /\ admin_products_delete 9223372036854775808 Demo.shop_admin
     = (Raise OverflowError, Demo.shop_admin).
Proof.
  destruct (admin_products_delete_removes 1 Demo.shop_admin eq_refl)
    as [H _].
  destruct (H eq_refl) as (_ & _ & H1 & H2 & _).
  split; [exact H1|]. split; [apply H2; discriminate|].
  apply (proj2 (admin_products_delete_removes 9223372036854775808
                  Demo.shop_admin eq_refl)).
  vm_compute. reflexivity.
Defined.

(** ** [admin_products_add] *)

(** X10: an accepted insert can be looked up: for an admin, a non-empty
    name, a price whose cents fit 64 bits, an upload that is saved (no
    file, or a sanitised name that is not empty and not longer than
    [NAME_MAX] bytes) and an id counter below 2^63 - 1, the new product
    gets an id that no product had, larger than every id handed out
    before; [SELECT ... WHERE id = ?] then finds the stripped name, the
    cents, the stripped description and the sanitised image name; every
    product that was there is found as before. *)
Theorem admin_products_add_stores
    (secure_filename : Py.str -> Py.str) (rq : request) (w w1 : world)
    (p : Z) (img : Py.str) :
  is_admin w = true ->
  form_stripped rq "name" <> [] ->
  price_of_form rq = Return p ->
  int64 p = true ->
  after_upload secure_filename rq w = Some (img, w1) ->
  int64 (next_id (db w)) = true ->
  let w' := snd (admin_products_add secure_filename rq w) in
  let k := next_id (db w) in
  fst (admin_products_add secure_filename rq w)
  = Return (redirect ep_admin_products)
  /\ (img = [] \/ saveable img = true)
  /\ seq (db w) < k
  /\ select_by_id (db w) k = None
  /\ select_by_id (db w') k
     = Some (Row k (form_stripped rq "name") p
                 (form_stripped rq "description") img)
  /\ (forall j r, select_by_id (db w) j = Some r ->
                  select_by_id (db w') j = Some r).
Proof.
  intros Hadm Hname Hp H64 Hu Hk w' k. subst w' k.
  destruct (after_upload_db _ _ _ _ _ Hu) as [Hdb _].
  assert (Himg : img = [] \/ saveable img = true).
  { unfold after_upload in Hu. destruct (kept_image rq) as [f|].
    - destruct (saveable (secure_filename (filename f))) eqn:E; [|discriminate].
      injection Hu as <- _. right. exact E.
    - injection Hu as <- _. left. reflexivity. }
  rewrite admin_products_add_run, Hadm, Hp, Hu. cbn [negb].
  destruct (form_stripped rq "name") as [|c nm] eqn:Hn; [congruence|].
  cbn [truthy negb]. rewrite Hdb.
  destruct (insert (db w) (c :: nm) p (form_stripped rq "description") img)
    as [t'|e] eqn:Hi.
  2:{ destruct (insert_Raise _ _ _ _ _ _ Hi). congruence. }
  cbn [fst snd]. change (db (with_flash (with_db ?x ?t) _)) with t.
  destruct (select_by_id_insert _ _ _ _ _ _ Hi) as (_ & Hnone & Hsel).
  split; [reflexivity|]. split; [exact Himg|].
  split; [apply next_id_gt|].
  split; [exact Hnone|]. split.
  - rewrite Hsel, Z.eqb_refl, Hk. reflexivity.
  - intros j r Hj. rewrite Hsel.
    destruct (Z.eqb_spec j (next_id (db w))) as [->|]; congruence.
Qed.

Lemma admin_products_add_stores_witness :
  select_by_id
    (db (snd (admin_products_add Demo.keep_safe
                (Demo.product_form_with_logo " Scarf " "12.50")
                Demo.shop_admin))) 4
  = Some (Row 4 (lit "Scarf") 1250 [] (lit "logo.png")).
Proof.
  destruct (admin_products_add_stores Demo.keep_safe
              (Demo.product_form_with_logo " Scarf " "12.50") Demo.shop_admin
              (with_upload Demo.shop_admin (lit "logo.png") Demo.logo)
              1250 (lit "logo.png"))
    as (_ & _ & _ & _ & H & _);
    [reflexivity | vm_compute; congruence | vm_compute; reflexivity
     | reflexivity | vm_compute; reflexivity | vm_compute; reflexivity |].
  exact H.
Defined.

(** ** [ORDER BY id DESC] *)

Lemma insert_desc_In (r x : row) (l : list row) :
  In x (insert_desc r l) <-> x = r \/ In x l.
Proof.
  induction l as [|y l IH]; simpl; [intuition congruence|].
  destruct (id y <=? id r); simpl; [intuition congruence|].
  rewrite IH. intuition congruence.
Qed.

Lemma select_all_desc_In (t : table) (x : row) :
  In x (select_all_desc t) <-> In x (rows t).
Proof.
  unfold select_all_desc. induction (rows t) as [|r l IH]; simpl; [tauto|].
  rewrite insert_desc_In, IH. intuition congruence.
Qed.

Lemma insert_desc_descending (r : row) (l : list row) :
  descending l -> descending (insert_desc r l).
Proof.
  induction l as [|y l IH]; simpl; [intros _; split; [constructor | exact I]|].
  intros [Hy Hl]. destruct (Z.leb_spec (id y) (id r)) as [Hle|Hgt]; simpl.
  - split; [|split; assumption].
    constructor; [exact Hle|].
    eapply List.Forall_impl; [|exact Hy]. simpl. intros; lia.
  - split; [|apply IH; exact Hl].
    apply List.Forall_forall. intros x Hx. apply insert_desc_In in Hx.
    destruct Hx as [->|Hx]; [lia|].
    rewrite List.Forall_forall in Hy. apply Hy. exact Hx.
Qed.

Lemma select_all_desc_descending (t : table) : descending (select_all_desc t).
Proof.
  unfold select_all_desc. induction (rows t) as [|r l IH]; simpl; [exact I|].
  apply insert_desc_descending. exact IH.
Qed.

Lemma filter_descending (f : row -> bool) (l : list row) :
  descending l -> descending (List.filter f l).
Proof.
  induction l as [|y l IH]; simpl; [trivial|].
  intros [Hy Hl]. destruct (f y); simpl; [|apply IH; exact Hl].
  split; [|apply IH; exact Hl].
  apply List.Forall_forall. intros x Hx. apply List.filter_In in Hx.
  rewrite List.Forall_forall in Hy. apply Hy. tauto.
Qed.

(** ** [LIKE] *)

Lemma any_suffix_here (f : Py.str -> bool) (t : Py.str) :
  f t = true -> any_suffix f t = true.
Proof. intros H. destruct t; simpl; rewrite H; reflexivity. Qed.

Lemma any_suffix_app (f : Py.str -> bool) (a t : Py.str) :
  any_suffix f t = true -> any_suffix f (a ++ t) = true.
Proof.
  induction a as [|c a IH]; simpl; [trivial|].
  intros H. rewrite (IH H). apply orb_true_r.
Qed.

Lemma any_suffix_split (f : Py.str -> bool) (t : Py.str) :
  any_suffix f t = true -> exists a b, t = a ++ b /\ f b = true.
Proof.
  induction t as [|c t IH]; simpl.
  - rewrite orb_false_r. intros H. exists [], []. split; [reflexivity | exact H].
  - intros H. apply orb_true_iff in H. destruct H as [H|H].
    + exists [], (c :: t). split; [reflexivity | exact H].
    + destruct (IH H) as (a & b & -> & Hb). exists (c :: a), b.
      split; [reflexivity | exact Hb].
Qed.

Lemma matches_percent (t : Py.str) : matches [37%N] t = true.
Proof.
  simpl. induction t as [|c t IH]; simpl; [reflexivity | exact IH].
Qed.

Lemma contains_nocase_like (q t : Py.str) :
  contains_nocase q t -> contains_like q t.
Proof.
  intros (a & q' & b & Ht & Hq). exists a, q', b. split; [exact Ht|].
  clear Ht. revert q Hq.
  induction q' as [|d q' IH]; intros [|c q] Hq; try discriminate.
  - reflexivity.
  - simpl in Hq. injection Hq as Hd Hq. simpl. rewrite (IH q Hq).
    f_equal. clear IH Hq.
    assert (Hl : forall x, (90 < x)%N -> lower x = x).
    { intros x Hx. unfold lower.
      destruct (N.leb_spec x 90); [lia|]. rewrite andb_false_r.
      reflexivity. }
    assert (Hr : forall x, (x <= 122)%N -> read x = x).
    { intros x Hx. unfold read.
      destruct (N.eqb_spec x 65534), (N.eqb_spec x 65535); (lia || reflexivity). }
    assert (Hb : forall x, (lower x <= 122)%N -> (x <= 122)%N).
    { intros x. unfold lower.
      destruct ((65 <=? x)%N && (x <=? 90)%N); lia. }
    destruct (N.le_gt_cases c 122) as [Hc|Hc].
    + rewrite (Hr c Hc), (Hr d); [exact Hd|]. apply Hb. rewrite Hd.
      unfold lower.
      destruct (N.leb_spec 65 c), (N.leb_spec c 90); cbn [andb]; lia.
    + rewrite (Hl c) in Hd by lia.
      assert (d = c) as ->; [|reflexivity].
      unfold lower in Hd.
      destruct (N.leb_spec 65 d), (N.leb_spec d 90); cbn [andb] in Hd; lia.
Qed.

(** A text that starts with [q], as [LIKE] compares characters, matches
    the pattern [q%], whatever wildcards [q] holds. *)
Lemma matches_prefix (q q' b : Py.str) :
  List.map (fun c => lower (read c)) q'
  = List.map (fun c => lower (read c)) q ->
  matches (q ++ [37%N]) (q' ++ b) = true.
Proof.
  revert q'. induction q as [|c q IH]; intros [|d q'] Hq; try discriminate.
  - apply matches_percent.
  - simpl in Hq. injection Hq as Hd Hq.
    change ((c :: q) ++ [37%N]) with (c :: (q ++ [37%N])).
    change ((d :: q') ++ b) with (d :: (q' ++ b)).
    cbn [matches]. destruct (c =? 37)%N.
    + cbn [any_suffix]. rewrite (any_suffix_here _ _ (IH q' Hq)).
      apply orb_true_r.
    + rewrite (IH q' Hq), andb_true_r. apply orb_true_iff. right.
      apply N.eqb_eq. congruence.
Qed.

(** Without wildcards in [q], a text that matches [q%] starts with [q],
    as [LIKE] compares characters. *)
Lemma matches_prefix_inv (q t : Py.str) :
  37%N ∉ q -> 95%N ∉ q ->
  matches (q ++ [37%N]) t = true ->
  exists q' b,
    t = q' ++ b
    /\ List.map (fun c => lower (read c)) q'
       = List.map (fun c => lower (read c)) q.
Proof.
  revert t. induction q as [|c q IH]; intros t Hp Hu Hm.
  - exists [], t. split; reflexivity.
  - apply not_elem_of_cons in Hp, Hu. destruct Hp as [Hc Hp], Hu as [Hc' Hu].
    change ((c :: q) ++ [37%N]) with (c :: (q ++ [37%N])) in Hm.
    cbn [matches] in Hm.
    destruct (N.eqb_spec c 37); [congruence|].
    destruct t as [|d t]; [discriminate|].
    apply andb_true_iff in Hm. destruct Hm as [Hcd Hm].
    destruct (N.eqb_spec c 95); [congruence|]. simpl in Hcd.
    apply N.eqb_eq in Hcd.
    destruct (IH t Hp Hu Hm) as (q' & b & -> & Hq').
    exists (d :: q'), b. split; [reflexivity|]. simpl. congruence.
Qed.

Lemma c_str_id (s : Py.str) : 0%N ∉ s -> c_str s = s.
Proof.
  induction s as [|c s IH]; simpl; [reflexivity|].
  intros H. apply not_elem_of_cons in H. destruct H as [Hc Hs].
  destruct (N.eqb_spec c 0); [congruence|]. rewrite (IH Hs). reflexivity.
Qed.

Lemma like_contains (q t : Py.str) :
  0%N ∉ q ->
  contains_like q (c_str t) -> like t (lit "%" ++ q ++ lit "%") = true.
Proof.
  intros H0 (a & q' & b & Ht & Hq). unfold like. rewrite Ht.
  change (lit "%" ++ q ++ lit "%") with (37%N :: (q ++ [37%N])).
  rewrite c_str_id.
  2:{ apply not_elem_of_cons. split; [discriminate|].
      intros Hin. apply elem_of_app in Hin. destruct Hin as [Hin|Hin];
        [exact (H0 Hin)|].
      apply list_elem_of_singleton in Hin. discriminate Hin. }
  cbn [matches N.eqb Pos.eqb]. apply any_suffix_app, any_suffix_here.
  apply matches_prefix. exact Hq.
Qed.

Lemma like_contains_inv (q t : Py.str) :
  0%N ∉ q -> 37%N ∉ q -> 95%N ∉ q ->
  like t (lit "%" ++ q ++ lit "%") = true -> contains_like q (c_str t).
Proof.
  intros H0 Hp Hu. unfold like.
  change (lit "%" ++ q ++ lit "%") with (37%N :: (q ++ [37%N])).
  rewrite c_str_id.
  2:{ apply not_elem_of_cons. split; [discriminate|].
      intros Hin. apply elem_of_app in Hin. destruct Hin as [Hin|Hin];
        [exact (H0 Hin)|].
      apply list_elem_of_singleton in Hin. discriminate Hin. }
  cbn [matches N.eqb Pos.eqb]. intros Hm.
  destruct (any_suffix_split _ _ Hm) as (a & t1 & Ht & Hm1).
  destruct (matches_prefix_inv _ _ Hp Hu Hm1) as (q' & b & -> & Hq).
  exists a, q', b. split; assumption.
Qed.

Lemma utf8_length_app (a b : Py.str) :
  utf8_length (a ++ b) = utf8_length a + utf8_length b.
Proof.
  unfold utf8_length. induction a as [|c a IH]; simpl; [lia|].
  rewrite IH. lia.
Qed.

Lemma utf8_length_pattern (q : Py.str) :
  utf8_length (lit "%" ++ q ++ lit "%") = utf8_length q + 2.
Proof.
  rewrite !utf8_length_app. change (utf8_length (lit "%")) with 1. lia.
Qed.

(** ** [index] *)

Lemma index_run (args : gmap string Py.str) (w : world) :
  let w1 := snd (init_db w) in
  let q := strip (default [] (args !! "q"%string)) in
  index args w
  = (if truthy q then
       if max_pattern_length <? utf8_length q + 2 then index_OperationalError
       else index_html
              (List.filter
                 (fun r => like (name r) (lit "%" ++ q ++ lit "%")
                           || like (description r) (lit "%" ++ q ++ lit "%"))
                 (select_all_desc (db w1))) q
     else index_html (select_all_desc (db w1)) q, w1).
Proof.
  intros w1 q. subst w1. unfold index. rewrite init_db_run. cbn [snd].
  fold q. destruct (truthy q); [|reflexivity].
  unfold select_like_desc. rewrite utf8_length_pattern.
  assert (Hne : rows (db match rows (db w) with
                         | [] => with_db w (seeded (db w))
                         | _ :: _ => w
                         end) <> []).
  { destruct (rows (db w)) eqn:E; [discriminate | congruence]. }
  destruct (rows (db _)); [congruence|].
  destruct (max_pattern_length <? utf8_length q + 2); reflexivity.
Qed.

(** Decides [c ∉ s] for a concrete text [s]. *)
Ltac not_in_text :=
  let H := fresh "H" in
  intros H; vm_compute in H;
  repeat (apply elem_of_cons in H; destruct H as [H|H]; [discriminate H|]);
  apply elem_of_nil in H; exact H.

(** X11: without a search text ([q] absent or blank) the storefront lists
    every product of the table, once [init_db] has run, by descending id;
    the list is never empty. *)
Theorem index_lists_catalog (args : gmap string Py.str) (w : world) :
  strip (default [] (args !! "q"%string)) = [] ->
  exists products,
    index args w = (index_html products [], snd (init_db w))
    /\ products <> []
    /\ descending products
    /\ forall r, In r products <-> In r (rows (db (snd (init_db w)))).
Proof.
  intros Hq. pose proof (index_run args w) as Hrun. cbv zeta in Hrun.
  rewrite Hq in Hrun. cbn [truthy] in Hrun.
  exists (select_all_desc (db (snd (init_db w)))).
  split; [exact Hrun|]. split.
  - intros Hnil.
    assert (Hne : rows (db (snd (init_db w))) <> []).
    { rewrite init_db_run. cbn [snd].
      destruct (rows (db w)) eqn:E; [discriminate | congruence]. }
    destruct (rows (db (snd (init_db w)))) as [|r rs] eqn:E; [congruence|].
    assert (Hin : In r (select_all_desc (db (snd (init_db w))))).
    { apply select_all_desc_In. rewrite E. left. reflexivity. }
    rewrite Hnil in Hin. exact Hin.
  - split; [apply select_all_desc_descending|].
    intros r. apply select_all_desc_In.
Qed.

Lemma index_lists_catalog_witness :
  exists products,
    index ∅ Demo.shop = (index_html products [], Demo.shop)
    /\ List.map id products = [3; 2; 1].
Proof.
  destruct (index_lists_catalog ∅ Demo.shop)
    as (products & H & _); [vm_compute; reflexivity|].
  exists products. split; [exact H|].
  assert (E : index ∅ Demo.shop
              = (index_html (select_all_desc (db Demo.shop)) [], Demo.shop))
    by (vm_compute; reflexivity).
  rewrite E in H. injection H as <-. vm_compute. reflexivity.
Defined.

(** X12: a search finds every literal occurrence: when the search text has
    no NUL and its pattern fits the length limit, every product whose name
    or description (read up to its first NUL) contains the text, ASCII
    letters without regard to case, is listed, also when the text contains
    the wildcards ['%'] or ['_']. *)
Theorem index_search_finds (args : gmap string Py.str) (w : world) (r : row) :
  let q := strip (default [] (args !! "q"%string)) in
  q <> [] ->
  0%N ∉ q ->
  utf8_length q + 2 <= max_pattern_length ->
  In r (rows (db (snd (init_db w)))) ->
  contains_nocase q (c_str (name r))
  \/ contains_nocase q (c_str (description r)) ->
  exists products,
    fst (index args w) = index_html products q /\ In r products.
Proof.
  intros q Hq H0 Hlen Hr Hc.
  pose proof (index_run args w) as Hrun. cbv zeta in Hrun. fold q in Hrun.
  rewrite Hrun. cbn [fst].
  destruct q as [|c q'] eqn:Eq; [congruence|]. cbn [truthy].
  destruct (Z.ltb_spec max_pattern_length (utf8_length (c :: q') + 2)); [lia|].
  eexists. split; [reflexivity|].
  apply List.filter_In. split; [apply select_all_desc_In; exact Hr|].
  apply orb_true_iff.
  destruct Hc as [Hc|Hc]; [left | right]; apply like_contains;
    try apply contains_nocase_like; assumption.
Qed.

Lemma index_search_finds_witness :
  exists products,
    fst (index {[ "q"%string := lit " 100% " ]}
               (with_db Demo.shop
                  (Table [Row 1 (lit "100% Wool") 5000 [] []] 1)))
    = index_html products (lit "100%")
    /\ In (Row 1 (lit "100% Wool") 5000 [] []) products.
Proof.
  destruct (index_search_finds {[ "q"%string := lit " 100% " ]}
              (with_db Demo.shop (Table [Row 1 (lit "100% Wool") 5000 [] []] 1))
              (Row 1 (lit "100% Wool") 5000 [] []))
    as (products & H & Hin).
  - vm_compute. discriminate.
  - not_in_text.
  - vm_compute. discriminate.
  - vm_compute. left. reflexivity.
  - left. exists [], (lit "100%"), (lit " Wool"). split; reflexivity.
  - exists products. split; [|exact Hin].
    rewrite H. f_equal.
Defined.

(** X13: a search text without wildcards and NUL, whose pattern fits the
    length limit, selects exactly the products whose name or description
    (read up to its first NUL) contains it as [LIKE] compares characters:
    ASCII letters without regard to case, U+FFFE and U+FFFF as U+FFFD, any
    other character exactly; they are listed by descending id. *)
Theorem index_search_exact (args : gmap string Py.str) (w : world) :
  let q := strip (default [] (args !! "q"%string)) in
  q <> [] ->
  0%N ∉ q -> 37%N ∉ q -> 95%N ∉ q ->
  utf8_length q + 2 <= max_pattern_length ->
  exists products,
    index args w = (index_html products q, snd (init_db w))
    /\ descending products
    /\ forall r,
         In r products
         <-> In r (rows (db (snd (init_db w))))
             /\ (contains_like q (c_str (name r))
                 \/ contains_like q (c_str (description r))).
Proof.
  intros q Hq H0 Hp Hu Hlen.
  pose proof (index_run args w) as Hrun. cbv zeta in Hrun. fold q in Hrun.
  rewrite Hrun.
  destruct q as [|c q'] eqn:Eq; [congruence|]. cbn [truthy].
  destruct (Z.ltb_spec max_pattern_length (utf8_length (c :: q') + 2)); [lia|].
  eexists. split; [reflexivity|]. split.
  - apply filter_descending, select_all_desc_descending.
  - intros r. rewrite List.filter_In, select_all_desc_In, orb_true_iff.
    split; intros [Hr Hm]; (split; [exact Hr|]).
    + destruct Hm as [Hm|Hm]; [left | right];
        apply like_contains_inv; assumption.
    + destruct Hm as [Hm|Hm]; [left | right];
        apply like_contains; assumption.
Qed.

Lemma index_search_exact_witness :
  exists products,
    index {[ "q"%string := lit "  HOOD " ]} Demo.shop
    = (index_html products (lit "HOOD"), Demo.shop)
    /\ List.map id products = [2].
Proof.
  destruct (index_search_exact {[ "q"%string := lit "  HOOD " ]} Demo.shop)
    as (products & H & _);
    [vm_compute; discriminate
    | not_in_text | not_in_text | not_in_text
    | vm_compute; discriminate |].
  exists products. split; [exact H|].
  assert (E : fst (index {[ "q"%string := lit "  HOOD " ]} Demo.shop)
              = index_html
                  (List.filter (fun r => (id r =? 2)) (rows (db Demo.shop)))
                  (lit "HOOD")) by (vm_compute; reflexivity).
  rewrite H in E. injection E as ->. vm_compute. reflexivity.
Defined.

(** X14: the storefront never ends in an exception of [init_db]; it ends
    in [sqlite3.OperationalError] exactly when there is a search text
    whose pattern [%q%] is longer than 50000 bytes in UTF-8. *)
Theorem index_fails_on_long_query (args : gmap string Py.str) (w : world) :
  let q := strip (default [] (args !! "q"%string)) in
  (forall e, fst (index args w) <> index_raise e)
  /\ (fst (index args w) = index_OperationalError
      <-> q <> [] /\ max_pattern_length < utf8_length q + 2).
Proof.
  intros q. pose proof (index_run args w) as Hrun. cbv zeta in Hrun.
  fold q in Hrun. rewrite Hrun. cbn [fst].
  destruct q as [|c q']; cbn [truthy].
  - split; [discriminate|]. split; [discriminate | intros [? _]; congruence].
  - destruct (Z.ltb_spec max_pattern_length (utf8_length (c :: q') + 2)).
    + split; [discriminate|]. split; [|reflexivity].
      intros _. split; [discriminate | assumption].
    + split; [discriminate|]. split; [discriminate | intros [_ ?]; lia].
Qed.

(** X15: the storefront repopulates an empty catalog for any visitor: on
    a table without rows, [index] leaves the three demo products under the
    next ids, whatever the session and the query; on any other table it
    changes nothing. *)
Theorem index_reseeds_empty_catalog (args : gmap string Py.str) (w : world) :
  (rows (db w) = [] -> snd (index args w) = with_db w (seeded (db w)))
  /\ (rows (db w) <> [] -> snd (index args w) = w).
Proof.
  pose proof (index_run args w) as Hrun. cbv zeta in Hrun. rewrite Hrun.
  cbn [snd]. rewrite init_db_run. cbn [snd].
  destruct (rows (db w)); split; congruence.
Qed.

(** ** Request by request *)

Lemma after_upload_world (sf : Py.str -> Py.str) (rq : request) (w w1 : world)
    (img : Py.str) :
  after_upload sf rq w = Some (img, w1) ->
  w1 = w \/ exists name f, w1 = with_upload w name f.
Proof.
  unfold after_upload. destruct (kept_image rq) as [f|].
  - destruct (saveable (sf (filename f))); [|discriminate].
    intros [= <- <-]. right. eauto.
  - intros [= <- <-]. left. reflexivity.
Qed.

(** Every request does to the world what [effect] allows. *)
Lemma serve_effect (sf : Py.str -> Py.str) (h : hit) (w : world) :
  effect sf w h (serve sf h w).
Proof.
  destruct h as [u a b]. unfold serve. cbn [url args body].
  destruct (existsb _ _) eqn:Hallowed.
  2:{ destruct u; try (apply eff_none; reflexivity).
      destruct (method b) eqn:Hm; [apply eff_none; unfold logs_in; cbn; rewrite Hm; reflexivity|].
      simpl in Hallowed. discriminate. }
  destruct u.
  - (* index *)
    pose proof (index_run a w) as Hrun. cbv zeta in Hrun. rewrite Hrun.
    cbn [snd]. rewrite init_db_run. cbn [snd].
    destruct (rows (db w)) eqn:E;
      [apply eff_seed; [reflexivity | exact E] | apply eff_none; reflexivity].
  - (* product_detail *)
    rewrite product_detail_run.
    destruct (int64 (Z.of_N pid)); [|apply eff_none; reflexivity].
    destruct (select_by_id _ _); apply eff_none; reflexivity.
  - (* cart_view *)
    unfold cart_view. unfold mbind at 1. unfold M_bind at 1.
    rewrite cart_items_run. apply eff_none. reflexivity.
  - (* cart_add *)
    destruct (int64 (Z.of_N pid)) eqn:H64.
    2:{ rewrite (cart_add_unbound _ _ _ H64). apply eff_none. reflexivity. }
    destruct (select_by_id (db w) (Z.of_N pid)) as [r|] eqn:Hr.
    + destruct (qty_of_form b) as [n|e] eqn:Hq.
      * rewrite (cart_add_found _ _ _ _ _ Hr Hq).
        apply (eff_cart_add sf w _ pid n); [reflexivity | congruence].
      * rewrite (cart_add_bad_qty _ _ _ _ _ Hr Hq). apply eff_none. reflexivity.
    + rewrite (cart_add_missing _ _ _ H64 Hr). apply eff_none. reflexivity.
  - (* cart_remove *)
    rewrite cart_remove_run. apply eff_cart_remove. reflexivity.
  - (* checkout *)
    destruct (method b) eqn:Hm.
    + rewrite (checkout_get_run _ _ Hm). apply eff_none. reflexivity.
    + rewrite (checkout_post_run _ _ Hm).
      destruct (negb _); [apply eff_flash | apply eff_checkout]; reflexivity.
  - (* admin_login *)
    rewrite admin_login_run. destruct (method b) eqn:Hm.
    + apply eff_none. unfold logs_in. cbn. rewrite Hm. reflexivity.
    + destruct (str_eqb _ _) eqn:Hpw.
      * apply eff_login. unfold logs_in. cbn. rewrite Hm. exact Hpw.
      * apply eff_flash. unfold logs_in. cbn. rewrite Hm. exact Hpw.
  - (* admin_products *)
    unfold admin_products. run.
    destruct (s_is_admin (session w)) as [[]|]; apply eff_none; reflexivity.
  - (* admin_products_add *)
    rewrite admin_products_add_run.
    destruct (is_admin w) eqn:Hadm; [|apply eff_none; reflexivity].
    cbn [negb]. destruct (price_of_form b) as [p|e];
      [|apply eff_none; reflexivity].
    destruct (after_upload sf b w) as [[img w1]|] eqn:Hu;
      [|apply eff_none; reflexivity].
    pose proof (after_upload_world _ _ _ _ _ Hu) as Hw1.
    destruct (after_upload_db _ _ _ _ _ Hu) as [Hdb _].
    destruct (negb (truthy (form_stripped b "name"))).
    { apply (eff_add sf w _ w1); [reflexivity | exact Hadm | exact Hw1 | auto]. }
    destruct (insert (db w1) _ p _ img) as [t'|e] eqn:Hi.
    + apply (eff_add sf w _ w1); [reflexivity | exact Hadm | exact Hw1 |].
      right. right. rewrite Hdb in Hi. eauto 10.
    + apply (eff_add sf w _ w1); [reflexivity | exact Hadm | exact Hw1 | auto].
  - (* admin_products_delete *)
    rewrite admin_products_delete_run.
    destruct (is_admin w) eqn:Hadm; [|apply eff_none; reflexivity].
    destruct (int64 (Z.of_N pid));
      [apply eff_delete; [reflexivity | exact Hadm] | apply eff_none; reflexivity].
Qed.

Lemma effect_password (sf : Py.str -> Py.str) (w w' : world) (h : hit) :
  effect sf w h w' -> ADMIN_PASSWORD w' = ADMIN_PASSWORD w.
Proof.
  destruct 1 as [| | | | | | |w1 w' _ _ H1 H2|]; try reflexivity.
  assert (E1 : ADMIN_PASSWORD w1 = ADMIN_PASSWORD w).
  { destruct H1 as [->|(nm & f & ->)]; reflexivity. }
  destruct H2 as [->|[->|(n & p & d & i & t' & _ & ->)]]; exact E1.
Qed.

Lemma effect_is_admin (sf : Py.str -> Py.str) (w w' : world) (h : hit) :
  effect sf w h w' -> is_admin w' = is_admin w || logs_in h w.
Proof.
  destruct 1 as [H|H ?|? H|? ? H ?|? H|H|H|w1 w' H Hadm H1 H2|? H ?];
    rewrite H; try (rewrite orb_false_r; reflexivity).
  - rewrite orb_true_r. reflexivity.
  - rewrite orb_false_r.
    assert (E1 : is_admin w1 = is_admin w).
    { destruct H1 as [->|(nm & f & ->)]; reflexivity. }
    destruct H2 as [->|[->|(n & p & d & i & t' & _ & ->)]]; exact E1.
Qed.

Lemma logs_in_password (h : hit) (w w' : world) :
  ADMIN_PASSWORD w' = ADMIN_PASSWORD w -> logs_in h w' = logs_in h w.
Proof. intros E. unfold logs_in. rewrite E. reflexivity. Qed.

Lemma existsb_logs_in (hs : list hit) (w w' : world) :
  ADMIN_PASSWORD w' = ADMIN_PASSWORD w ->
  existsb (fun h => logs_in h w') hs = existsb (fun h => logs_in h w) hs.
Proof.
  intros E. induction hs as [|h hs IH]; simpl; [reflexivity|].
  rewrite IH, (logs_in_password h w w' E). reflexivity.
Qed.

(** X16: the admin flag is set by the password and by nothing else, and
    nothing clears it: after any sequence of requests the session is admin
    exactly when it was admin before or one of the requests was a
    [POST /admin] with the configured password. *)
Theorem admin_flag_follows_password
    (secure_filename : Py.str -> Py.str) (hs : list hit) (w : world) :
  is_admin (browse secure_filename hs w)
  = is_admin w || existsb (fun h => logs_in h w) hs.
Proof.
  revert w. induction hs as [|h hs IH]; intros w; simpl.
  - rewrite orb_false_r. reflexivity.
  - pose proof (serve_effect secure_filename h w) as He.
    rewrite IH, (effect_is_admin _ _ _ _ He), <- orb_assoc.
    f_equal. f_equal. apply existsb_logs_in.
    apply (effect_password _ _ _ _ He).
Qed.

Lemma admin_flag_example :
  is_admin (browse Demo.keep_safe Tour.visitor Demo.shop) = false
  /\ is_admin (browse Demo.keep_safe Tour.admin_session Demo.shopper) = true.
Proof. vm_compute. split; reflexivity. Qed.

Lemma effect_catalog (sf : Py.str -> Py.str) (w w' : world) (h : hit) :
  effect sf w h w' ->
  is_admin w = false -> rows (db w) <> [] ->
  db w' = db w /\ uploads w' = uploads w.
Proof.
  destruct 1; intros Hadm Hrows; try (split; reflexivity); congruence.
Qed.

(** X17: a session that is not admin cannot change the catalog: along any
    sequence of requests without a successful login, starting from a table
    that has rows, the products table and the upload directory stay as
    they were. (On a table without rows a visit of the storefront stores
    the demo products.) *)
Theorem visitors_cannot_change_catalog
    (secure_filename : Py.str -> Py.str) (hs : list hit) (w : world) :
  is_admin w = false ->
  rows (db w) <> [] ->
  List.Forall (fun h => logs_in h w = false) hs ->
  db (browse secure_filename hs w) = db w
  /\ uploads (browse secure_filename hs w) = uploads w.
Proof.
  revert w. induction hs as [|h hs IH]; intros w Hadm Hrows Hlog; simpl.
  - split; reflexivity.
  - apply List.Forall_cons_iff in Hlog. destruct Hlog as [Hh Hhs].
    pose proof (serve_effect secure_filename h w) as He.
    destruct (effect_catalog _ _ _ _ He Hadm Hrows) as [Hdb Hup].
    destruct (IH (serve secure_filename h w)) as [Hdb' Hup'].
    + rewrite (effect_is_admin _ _ _ _ He), Hadm, Hh. reflexivity.
    + rewrite Hdb. exact Hrows.
    + eapply List.Forall_impl; [|exact Hhs]. simpl. intros h' Hh'.
      rewrite (logs_in_password h' w _ (effect_password _ _ _ _ He)). exact Hh'.
    + split; congruence.
Qed.

Lemma visitors_cannot_change_catalog_witness :
  db (browse Demo.keep_safe Tour.visitor Demo.shop) = db Demo.shop
  /\ uploads (browse Demo.keep_safe Tour.visitor Demo.shop) = uploads Demo.shop.
Proof.
  apply (visitors_cannot_change_catalog Demo.keep_safe Tour.visitor Demo.shop).
  - reflexivity.
  - vm_compute. discriminate.
  - vm_compute. repeat constructor.
Defined.

(** ** The cart stays a cart *)

Lemma dict_get_In {K V} `{EqDecision K} (d : dict K V) (k : K) (v : V) :
  dict_get d k = Some v -> In (k, v) d.
Proof.
  induction d as [|[k' v'] d IH]; simpl; [discriminate|].
  destruct (decide (k' = k)) as [E|E]; [intros [= ->]; left; congruence|].
  intros H. right. apply IH. exact H.
Qed.

Lemma dict_set_Forall {K V} `{EqDecision K} (P : K * V -> Prop)
    (d : dict K V) (k : K) (v : V) :
  (forall k', P (k', v)) -> List.Forall P d -> List.Forall P (dict_set d k v).
Proof.
  intros Hv. induction 1 as [|[k' v'] d Hx Hd IH]; simpl.
  - constructor; [apply Hv | constructor].
  - destruct (decide (k' = k)); constructor; auto.
Qed.

Lemma dict_pop_Forall {K V} `{EqDecision K} (P : K * V -> Prop)
    (d : dict K V) (k : K) :
  List.Forall P d -> List.Forall P (dict_pop d k).
Proof.
  induction 1 as [|[k' v'] d Hx Hd IH]; simpl; [constructor|].
  destruct (decide (k' = k)); [exact Hd | constructor; assumption].
Qed.

Lemma cart_ok_set (c : cart_t) (pid : N) (n : Z) :
  cart_ok c ->
  cart_ok (dict_set c pid (default 0 (dict_get c pid) + Py.max 1 n)).
Proof.
  intros [Hnd Hq]. split; [apply dict_set_NoDup; exact Hnd|].
  apply dict_set_Forall; [|exact Hq]. intros k'. simpl.
  assert (1 <= Py.max 1 n) by (unfold Py.max; destruct (Z.ltb_spec 1 n); lia).
  destruct (dict_get c pid) as [v|] eqn:Hg; simpl; [|lia].
  rewrite List.Forall_forall in Hq.
  specialize (Hq _ (dict_get_In _ _ _ Hg)). simpl in Hq. lia.
Qed.

Lemma cart_ok_pop (c : cart_t) (pid : N) : cart_ok c -> cart_ok (dict_pop c pid).
Proof.
  intros [Hnd Hq]. split; [apply dict_pop_NoDup | apply dict_pop_Forall]; assumption.
Qed.

Lemma cart_ok_nil : cart_ok [].
Proof. split; [apply NoDup_nil_2 | constructor]. Qed.

Lemma effect_cart_ok (sf : Py.str -> Py.str) (w w' : world) (h : hit) :
  effect sf w h w' -> cart_ok (cart_of w) -> cart_ok (cart_of w').
Proof.
  destruct 1 as [| | | | | | |w1 w' _ _ H1 H2|]; intros Hok;
    try exact Hok.
  - apply cart_ok_set. exact Hok.
  - apply cart_ok_pop. exact Hok.
  - apply cart_ok_nil.
  - assert (E1 : cart_of w1 = cart_of w).
    { destruct H1 as [->|(nm & f & ->)]; reflexivity. }
    destruct H2 as [->|[->|(n & p & d & i & t' & _ & ->)]];
      change (cart_ok (cart_of w1)); rewrite E1; exact Hok.
Qed.

(** X18: whatever requests a client sends, its cart keeps distinct keys
    and quantities of at least 1; in particular this holds from a session
    that has no cart yet. *)
Theorem cart_stays_well_formed
    (secure_filename : Py.str -> Py.str) (hs : list hit) (w : world) :
  cart_ok (cart_of w) -> cart_ok (cart_of (browse secure_filename hs w)).
Proof.
  revert w. induction hs as [|h hs IH]; intros w Hok; simpl; [exact Hok|].
  apply IH. apply (effect_cart_ok _ _ _ _ (serve_effect secure_filename h w)).
  exact Hok.
Qed.

Lemma cart_stays_well_formed_witness :
  cart_ok (cart_of (browse Demo.keep_safe (firstn 9 Tour.visitor) Demo.fresh))
  /\ cart_of (browse Demo.keep_safe (firstn 9 Tour.visitor) Demo.fresh)
     = [(1%N, 5)].
Proof.
  split; [|vm_compute; reflexivity].
  apply (cart_stays_well_formed Demo.keep_safe (firstn 9 Tour.visitor) Demo.fresh).
  apply cart_ok_nil.
Defined.

(** ** Ids are not handed out twice *)

Lemma find_none_above (rs : list row) (k bound : Z) :
  List.Forall (fun r => bound < id r) rs -> k <= bound ->
  List.find (fun x => id x =? k) rs = None.
Proof.
  intros H Hk. induction H as [|x rs Hx _ IH]; simpl; [reflexivity|].
  destruct (Z.eqb_spec (id x) k); [lia | exact IH].
Qed.

Lemma retired_seeded (pid : Z) (t : table) :
  rows t = [] -> retired pid t -> retired pid (seeded t).
Proof.
  intros _ (_ & Hle & _). unfold retired, seq_ok, seeded. cbn [rows seq].
  split; [repeat constructor; simpl; lia|]. split; [lia|].
  unfold select_by_id. cbn [rows]. destruct (int64 pid); [|reflexivity].
  apply (find_none_above _ pid (seq t)); [|exact Hle].
  repeat constructor; simpl; lia.
Qed.

Lemma retired_insert (pid : Z) (t t' : table) (n : Py.str) (p : Z) (d i : Py.str) :
  insert t n p d i = Return t' -> retired pid t -> retired pid t'.
Proof.
  intros Hi (Hok & Hle & Hnone).
  destruct (select_by_id_insert _ _ _ _ _ _ Hi) as (Hseq & _ & Hsel).
  destruct (insert_Return _ _ _ _ _ _ Hi) as [_ Hrows].
  destruct (next_id_gt t) as [Hgt _].
  split; [|split].
  - unfold seq_ok. rewrite Hrows, Hseq. apply List.Forall_app. split.
    + eapply List.Forall_impl; [|exact Hok]. simpl. intros; lia.
    + repeat constructor. simpl. lia.
  - lia.
  - rewrite Hsel. destruct (Z.eqb_spec pid (next_id t)); [lia | exact Hnone].
Qed.

Lemma seq_ok_delete (t : table) (k : Z) : seq_ok t -> seq_ok (delete t k).
Proof.
  unfold seq_ok, delete. cbn [rows seq]. intros H.
  apply List.Forall_forall. intros r Hr. apply List.filter_In in Hr.
  rewrite List.Forall_forall in H. apply H. tauto.
Qed.

Lemma retired_delete (pid k : Z) (t : table) :
  retired pid t -> retired pid (delete t k).
Proof.
  intros (Hok & Hle & Hnone). split; [apply seq_ok_delete; exact Hok|].
  split; [exact Hle|]. rewrite select_by_id_delete.
  destruct (pid =? k); [reflexivity | exact Hnone].
Qed.

Lemma effect_retired (sf : Py.str -> Py.str) (w w' : world) (h : hit) (pid : Z) :
  effect sf w h w' -> retired pid (db w) -> retired pid (db w').
Proof.
  destruct 1 as [|? Hrows| | | | | |w1 w' _ _ H1 H2|]; intros Hret;
    try exact Hret.
  - apply retired_seeded; assumption.
  - assert (E1 : db w1 = db w).
    { destruct H1 as [->|(nm & f & ->)]; reflexivity. }
    destruct H2 as [->|[->|(n & p & d & i & t' & Hi & ->)]].
    + rewrite E1. exact Hret.
    + change (retired pid (db w1)). rewrite E1. exact Hret.
    + change (retired pid t'). apply (retired_insert _ _ _ _ _ _ _ Hi Hret).
  - apply retired_delete. exact Hret.
Qed.

(** X19: the id of a deleted product is not handed out again: in a table
    whose ids all come from the AUTOINCREMENT counter, once an admin has
    deleted a product no later request, neither an insert nor the
    re-seeding of an empty table, puts a product under its id; a cart
    entry for it stays without a product. *)
Theorem deleted_id_is_not_reused
    (secure_filename : Py.str -> Py.str) (pid : N) (hs : list hit) (w : world) :
  is_admin w = true ->
  seq_ok (db w) ->
  select_by_id (db w) (Z.of_N pid) <> None ->
  select_by_id
    (db (browse secure_filename hs (snd (admin_products_delete pid w))))
    (Z.of_N pid)
  = None.
Proof.
  intros Hadm Hok Hex.
  assert (Hret : retired (Z.of_N pid) (db (snd (admin_products_delete pid w)))).
  { rewrite admin_products_delete_run, Hadm.
    rewrite (select_by_id_int64 _ _ Hex). cbn [snd].
    change (db (with_flash (with_db ?x ?t) _)) with t.
    split; [apply seq_ok_delete; exact Hok|]. split.
    - destruct (select_by_id (db w) (Z.of_N pid)) as [r|] eqn:Hr; [|congruence].
      destruct (select_by_id_Some _ _ _ Hr) as [<- Hin].
      unfold seq_ok in Hok. rewrite List.Forall_forall in Hok.
      apply (Hok r Hin).
    - rewrite select_by_id_delete, Z.eqb_refl. reflexivity. }
  revert Hret. generalize (snd (admin_products_delete pid w)).
  induction hs as [|h hs IH]; intros w0 Hret; simpl.
  - apply Hret.
  - apply IH. apply (effect_retired _ _ _ _ _ (serve_effect secure_filename h w0)).
    exact Hret.
Qed.

Lemma deleted_id_is_not_reused_witness :
  select_by_id
    (db (browse Demo.keep_safe
           [Tour.post (url_admin_products_delete 2) [];
            Tour.post (url_admin_products_delete 3) [];
            Tour.get url_index;
            Tour.post url_admin_products_add [("name", "Scarf"); ("price", "9")]]
           (snd (admin_products_delete 1 Demo.shop_admin))))
    1
  = None
  /\ List.map id
       (rows (db (browse Demo.keep_safe
                    [Tour.post (url_admin_products_delete 2) [];
                     Tour.post (url_admin_products_delete 3) [];
                     Tour.get url_index;
                     Tour.post url_admin_products_add
                               [("name", "Scarf"); ("price", "9")]]
                    (snd (admin_products_delete 1 Demo.shop_admin)))))
     = [4; 5; 6; 7].
Proof.
  split; [|vm_compute; reflexivity].
  apply (deleted_id_is_not_reused Demo.keep_safe 1 _ Demo.shop_admin).
  - reflexivity.
  - vm_compute. repeat constructor; discriminate.
  - vm_compute. discriminate.
Defined.
